(** * worker-faster_whisper: the predictor and its output formatters

    A shallow embedding of [src/predict.py]: the subtitle and plain-text
    renderers ([write_srt], [write_vtt], [format_segments]), the segment
    serializer and [Predictor.setup] / [Predictor.predict].

    Conventions of the embedding.
    - A Python [str] is a [string]; a character stands for the code point
      of the same number (0..255).
    - A Python [float] is a primitive binary64 [float].
    - A raised exception is the [Raise] case of [res]; what a function
      prints and which library calls it makes are recorded, in order, in
      the [log] of the monad [M]. *)

From Stdlib Require Import ZArith Floats DecimalString Ascii.
From stdpp Require Import gmap strings list fin_maps.

Local Open Scope Z_scope.

(** ** Exceptions *)

(** The exception classes that can leave the code of [predict.py].
    [LibraryError] stands for any exception escaping a call into an external
    library (loading the model, transcribing, [np.arange]), whatever its
    Python class; its argument is what [str(e)] gives. *)
Inductive exn : Type :=
  | ValueError (msg : string)
  | RuntimeError (msg : string)
  | AssertionError (msg : string)
  | OverflowError (msg : string)
  | TypeError (msg : string)
  | LibraryError (msg : string).

Inductive res (A : Type) : Type :=
  | Ok (a : A)
  | Raise (e : exn).
Arguments Ok {A} a.
Arguments Raise {A} e.

#[global] Instance res_ret : MRet res := fun _ a => Ok a.
#[global] Instance res_bind : MBind res := fun _ _ f r =>
  match r with
  | Ok a => f a
  | Raise e => Raise e
  end.
#[global] Instance res_fmap : FMap res := fun _ _ f r =>
  match r with
  | Ok a => Ok (f a)
  | Raise e => Raise e
  end.

(** ** Python string operations *)

Module Py.

(** [str.isspace] on one character, for the code points below 256:
    TAB..CR, FS..US, SPACE, NEL (0x85) and NBSP (0xA0). *)
Definition isspace (c : ascii) : bool :=
  let n := N_of_ascii c in
  ((9 <=? n) && (n <=? 13) || (28 <=? n) && (n <=? 32)
   || (n =? 133) || (n =? 160))%N.

(** [s.lstrip()] *)
Fixpoint lstrip (s : string) : string :=
  match s with
  | EmptyString => EmptyString
  | String c r => if isspace c then lstrip r else s
  end.

(** [s.rstrip()] *)
Fixpoint rstrip (s : string) : string :=
  match s with
  | EmptyString => EmptyString
  | String c r =>
      match rstrip r with
      | EmptyString => if isspace c then EmptyString else String c EmptyString
      | r' => String c r'
      end
  end.

(** [s.strip()] *)
Definition strip (s : string) : string := rstrip (lstrip s).

(** [s.startswith(p)] *)
Fixpoint startswith (p s : string) : bool :=
  match p, s with
  | EmptyString, _ => true
  | String a p', String b s' => Ascii.eqb a b && startswith p' s'
  | String _ _, EmptyString => false
  end.

(** [s.replace(old, new)] for a non-empty [old]: the occurrences of [old]
    are found from the left and do not overlap. [skip] counts the
    characters of a matched occurrence that are still to be dropped. *)
Fixpoint replace_from (skip : nat) (old new s : string) : string :=
  match s with
  | EmptyString => EmptyString
  | String c r =>
      match skip with
      | S k => replace_from k old new r
      | O =>
          if startswith old s
          then new +:+ replace_from (String.length old - 1) old new r
          else String c (replace_from O old new r)
      end
  end.

Definition replace (old new s : string) : string := replace_from O old new s.

(** The line feed, Python's ["\n"]. *)
Definition LF : string := String "010"%char EmptyString.

(** [sep.join(parts)] *)
Fixpoint join (sep : string) (parts : list string) : string :=
  match parts with
  | [] => EmptyString
  | [x] => x
  | x :: rest => x +:+ sep +:+ join sep rest
  end.

(** [str(n)] for an [int] *)
Definition str_int (n : Z) : string := NilZero.string_of_int (Z.to_int n).

Fixpoint zeros (n : nat) : string :=
  match n with
  | O => EmptyString
  | S k => String "0" (zeros k)
  end.

(** [format(n, "0<width>d")]: decimal digits, zero-padded on the left to at
    least [width] characters, the sign first. *)
Definition format_0d (width : nat) (n : Z) : string :=
  let digits := NilZero.string_of_uint (N.to_uint (Z.abs_N n)) in
  if n <? 0
  then String "-" (zeros (width - 1 - String.length digits) +:+ digits)
  else zeros (width - String.length digits) +:+ digits.

(** Rounding [m * 2^e] to the nearest integer, ties to the even one. *)
Definition round_half_even (m : positive) (e : Z) : Z :=
  if 0 <=? e then Z.pos m * 2 ^ e
  else
    let d := 2 ^ (- e) in
    let q := Z.pos m / d in
    let r := Z.pos m mod d in
    if 2 * r <? d then q
    else if d <? 2 * r then q + 1
    else if Z.even q then q else q + 1.

(** [round(x)] for a [float] [x]: an [int], ties to even. *)
Definition round (x : float) : res Z :=
  match Prim2SF x with
  | S754_zero _ => Ok 0
  | S754_infinity _ =>
      Raise (OverflowError "cannot convert float infinity to integer")
  | S754_nan => Raise (ValueError "cannot convert float NaN to integer")
  | S754_finite s m e =>
      Ok (if s then - round_half_even m e else round_half_even m e)
  end.

End Py.

(** ** faster_whisper.utils.format_timestamp *)

(** Modelled from the spec: [format_timestamp] is imported from the
    faster_whisper library and is not part of the sources. The spec's rule is
    hours:minutes:seconds.fraction, hours always rendered when asked for,
    the decimal separator configurable; the fraction is the millisecond part
    on three digits, hours, minutes and seconds on two. The library rejects a
    negative offset by an assertion. *)
Definition format_timestamp (seconds : float) (always_include_hours : bool)
    (decimal_marker : string) : res string :=
  if negb (0 <=? seconds)%float
  then Raise (AssertionError "non-negative timestamp expected")
  else
    milliseconds ← Py.round (seconds * 1000)%float;
    let hours := milliseconds / 3600000 in
    let milliseconds := milliseconds - hours * 3600000 in
    let minutes := milliseconds / 60000 in
    let milliseconds := milliseconds - minutes * 60000 in
    let seconds := milliseconds / 1000 in
    let milliseconds := milliseconds - seconds * 1000 in
    let hours_marker :=
      if always_include_hours || (0 <? hours)
      then Py.format_0d 2 hours +:+ ":" else "" in
    Ok (hours_marker +:+ Py.format_0d 2 minutes +:+ ":"
        +:+ Py.format_0d 2 seconds +:+ decimal_marker
        +:+ Py.format_0d 3 milliseconds).

(** ** Data model *)

(** The values that cross the API: keyword arguments handed to the library
    and the JSON-like response. *)
#[warnings="-register-all"] Inductive pyvalue : Type :=
  | PyNone
  | PyBool (b : bool)
  | PyInt (n : Z)
  | PyFloat (x : float)
  | PyStr (s : string)
  | PyList (items : list pyvalue)
  | PyTuple (items : list pyvalue)
  | PyDict (d : gmap string pyvalue).

(** faster_whisper's [Word] and [Segment]; [words] is [None] unless the
    library was asked for word-level timestamps. *)
Module Word.
Record t : Type := {
  start : float;
  end_ : float;
  word : string;
  probability : float;
}.
End Word.

Module Segment.
Record t : Type := {
  id : Z;
  seek : Z;
  start : float;
  end_ : float;
  text : string;
  tokens : list Z;
  temperature : float;
  avg_logprob : float;
  compression_ratio : float;
  no_speech_prob : float;
  words : option (list Word.t);
}.
End Segment.

(** ** Subtitle writers *)

(** The text line of a cue: [segment.text.strip().replace('-->', '->')]. *)
Definition cue_text (segment : Segment.t) : string :=
  Py.replace "-->" "->" (Py.strip (Segment.text segment)).

(** The [for] loop of [write_vtt], on the accumulated [result]. *)
Fixpoint write_vtt_loop (transcript : list Segment.t) (result : string)
    : res string :=
  match transcript with
  | [] => Ok result
  | segment :: rest =>
      t_start ← format_timestamp (Segment.start segment) true ".";
      t_end ← format_timestamp (Segment.end_ segment) true ".";
      let result := result +:+ (t_start +:+ " --> " +:+ t_end +:+ Py.LF) in
      let result := result +:+ (cue_text segment +:+ Py.LF) in
      let result := result +:+ Py.LF in
      write_vtt_loop rest result
  end.

Definition write_vtt (transcript : list Segment.t) : res string :=
  write_vtt_loop transcript "".

(** The loop of [write_srt]; [i] is the counter of [enumerate]. *)
Fixpoint write_srt_loop (i : Z) (transcript : list Segment.t) (result : string)
    : res string :=
  match transcript with
  | [] => Ok result
  | segment :: rest =>
      let result := result +:+ (Py.str_int i +:+ Py.LF) in
      t_start ← format_timestamp (Segment.start segment) true ",";
      let result := result +:+ (t_start +:+ " --> ") in
      t_end ← format_timestamp (Segment.end_ segment) true ",";
      let result := result +:+ (t_end +:+ Py.LF) in
      let result := result +:+ (cue_text segment +:+ Py.LF) in
      let result := result +:+ Py.LF in
      write_srt_loop (i + 1) rest result
  end.

Definition write_srt (transcript : list Segment.t) : res string :=
  write_srt_loop 1 transcript "".

(** ** Effects: prints and library calls *)

Inductive event : Type :=
  | EvPrint (line : string)
  | EvGcCollect
  | EvEmptyCache
  | EvTranscribe (audio : string) (kwargs : gmap string pyvalue).

(** A computation that logs events and returns or raises. *)
Record M (A : Type) : Type := MkM {
  log : list event;
  outcome : res A;
}.
Arguments MkM {A} log outcome.
Arguments log {A} m.
Arguments outcome {A} m.

#[global] Instance M_ret : MRet M := fun _ a => MkM [] (Ok a).
#[global] Instance M_bind : MBind M := fun _ _ f m =>
  match outcome m with
  | Ok a => let m' := f a in MkM (log m ++ log m') (outcome m')
  | Raise e => MkM (log m) (Raise e)
  end.

Definition emit (e : event) : M unit := MkM [e] (Ok tt).
Definition print (line : string) : M unit := emit (EvPrint line).
Definition raise {A} (e : exn) : M A := MkM [] (Raise e).
Definition lift {A} (r : res A) : M A := MkM [] r.

(** What a call into an external library gives back. *)
Inductive lib_result (A : Type) : Type :=
  | Returned (a : A)
  | Raised (msg : string).
Arguments Returned {A} a.
Arguments Raised {A} msg.

Definition from_library {A} (r : lib_result A) : res A :=
  match r with
  | Returned a => Ok a
  | Raised msg => Raise (LibraryError msg)
  end.

(** ** format_segments *)

Definition format_segments (format_type : string) (segments : list Segment.t)
    : M string :=
  if String.eqb format_type "plain_text" then
    mret (Py.join " "
            (map (fun segment => Py.lstrip (Segment.text segment)) segments))
  else if String.eqb format_type "formatted_text" then
    mret (Py.join Py.LF
            (map (fun segment => Py.lstrip (Segment.text segment)) segments))
  else if String.eqb format_type "srt" then
    lift (write_srt segments)
  else if String.eqb format_type "vtt" then
    lift (write_vtt segments)
  else
    print ("Warning: Unknown format '" +:+ format_type
           +:+ "', defaulting to plain text.");;
    mret (Py.join " "
            (map (fun segment => Py.lstrip (Segment.text segment)) segments)).

(** ** serialize_segments *)

Definition serialize_segment (segment : Segment.t) : pyvalue :=
  PyDict (list_to_map [
    ("id", PyInt (Segment.id segment));
    ("seek", PyInt (Segment.seek segment));
    ("start", PyFloat (Segment.start segment));
    ("end", PyFloat (Segment.end_ segment));
    ("text", PyStr (Segment.text segment));
    ("tokens", PyList (map PyInt (Segment.tokens segment)));
    ("temperature", PyFloat (Segment.temperature segment));
    ("avg_logprob", PyFloat (Segment.avg_logprob segment));
    ("compression_ratio", PyFloat (Segment.compression_ratio segment));
    ("no_speech_prob", PyFloat (Segment.no_speech_prob segment))
  ]).

Definition serialize_segments (transcript : list Segment.t) : list pyvalue :=
  map serialize_segment transcript.

(** ** The predictor *)

(** Only large-v2 model is available. *)
Definition AVAILABLE_MODELS : gset string := {[ "large-v2" ]}.

(** [str] of a set of plain strings, as an f-string renders it. *)
Definition str_set (s : gset string) : string :=
  "{" +:+ Py.join ", " (map (fun x => "'" +:+ x +:+ "'") (elements s)) +:+ "}".

Record TranscriptionInfo : Type := {
  info_language : string;
}.

(** A loaded model: what [model.transcribe(audio, **kwargs)] yields once its
    segment generator is drained. *)
Record WhisperModel : Type := {
  transcribe :
    string -> gmap string pyvalue ->
    lib_result (list Segment.t * TranscriptionInfo);
}.

(** The object state of [Predictor]; the lock guards the read of [model]
    and holds no data. *)
Record Predictor : Type := {
  model : option WhisperModel;
}.

(** [Predictor.__init__] *)
Definition Predictor_init : Predictor := {| model := None |}.

(** The arguments of [predict]. [audio] is [str(audio)]; [translate] and
    [word_timestamps] are read for their truth value. *)
Record PredictArgs : Type := {
  audio : string;
  model_name : string;
  transcription : string;
  translate : bool;
  translation : string;
  language : pyvalue;
  temperature : pyvalue;
  best_of : pyvalue;
  beam_size : pyvalue;
  patience : pyvalue;
  length_penalty : pyvalue;
  suppress_tokens : pyvalue;
  initial_prompt : pyvalue;
  condition_on_previous_text : pyvalue;
  temperature_increment_on_fallback : pyvalue;
  compression_ratio_threshold : pyvalue;
  logprob_threshold : pyvalue;
  no_speech_threshold : pyvalue;
  enable_vad : pyvalue;
  vad_parameters : pyvalue;
  word_timestamps : bool;
}.

Definition is_none (v : pyvalue) : bool :=
  match v with PyNone => true | _ => false end.

(** One entry of the flattened word list. *)
Definition word_entry (word : Word.t) : pyvalue :=
  PyDict (list_to_map [
    ("word", PyStr (Word.word word));
    ("start", PyFloat (Word.start word));
    ("end", PyFloat (Word.end_ word))
  ]).

(** The nested loops filling [word_timestamps_list]; iterating over a
    segment whose [words] is [None] raises. *)
Fixpoint word_timestamps_loop (segments : list Segment.t)
    (word_timestamps_list : list pyvalue) : res (list pyvalue) :=
  match segments with
  | [] => Ok word_timestamps_list
  | segment :: rest =>
      match Segment.words segment with
      | None => Raise (TypeError "'NoneType' object is not iterable")
      | Some ws =>
          word_timestamps_loop rest
            (fold_left (fun acc word => acc ++ [word_entry word]) ws
               word_timestamps_list)
      end
  end.

Section Predictor.

(** The environment: what the platform and the libraries answer. *)
Variable cuda_is_available : bool.
Variable TORCH_AVAILABLE : bool.
(** [WhisperModel(name, device=, compute_type=, cpu_threads=)] *)
Variable WhisperModel_new :
  string -> string -> string -> Z -> lib_result WhisperModel.
(** [np.arange(start, stop, step)] *)
Variable np_arange : pyvalue -> pyvalue -> pyvalue -> lib_result (list pyvalue).

(** The clearing of the CUDA cache, which [setup] does before loading (and
    announces) and again when loading failed. *)
Definition clear_cuda_cache (announce : bool) : M unit :=
  if cuda_is_available then
    emit EvGcCollect;;
    if TORCH_AVAILABLE then
      emit EvEmptyCache;;
      if announce then print "Cleared CUDA cache before model loading"
      else mret tt
    else mret tt
  else mret tt.

(** [Predictor.setup]: the object after the call, and what the call did. *)
Definition setup (self : Predictor) : Predictor * M unit :=
  let before :=
    print "Loading large-v2 model during setup...";;
    clear_cuda_cache true in
  match WhisperModel_new "large-v2"
          (if cuda_is_available then "cuda" else "cpu")
          (if cuda_is_available then "float16" else "int8")
          (if negb cuda_is_available then 4 else 0) with
  | Returned m =>
      ({| model := Some m |},
       before;; print "large-v2 model loaded successfully and cached.")
  | Raised e =>
      (self,
       before;;
       print ("Error loading large-v2 model during setup: " +:+ e);;
       clear_cuda_cache false;;
       raise (RuntimeError
                ("Failed to load large-v2 model during setup: " +:+ e)))
  end.

(** The call [model.transcribe(audio, **kwargs)]. *)
Definition call_transcribe (m : WhisperModel) (audio : string)
    (kwargs : gmap string pyvalue) : M (list Segment.t * TranscriptionInfo) :=
  MkM [EvTranscribe audio kwargs] (from_library (transcribe m audio kwargs)).

(** The temperature handed to the library: the fallback ladder, or a
    one-element list. The stop value is [1.0 + 1e-6]. *)
Definition temperature_setting (a : PredictArgs) : res pyvalue :=
  if negb (is_none (temperature_increment_on_fallback a)) then
    PyTuple <$> from_library
      (np_arange (temperature a) (PyFloat (1 + 0x1.0c6f7a0b5ed8dp-20)%float)
         (temperature_increment_on_fallback a))
  else Ok (PyList [temperature a]).

(** The keyword arguments of the transcription pass. *)
Definition transcribe_kwargs (a : PredictArgs) (temperature : pyvalue)
    : gmap string pyvalue :=
  list_to_map [
    ("language", language a);
    ("task", PyStr "transcribe");
    ("beam_size", beam_size a);
    ("best_of", best_of a);
    ("patience", patience a);
    ("length_penalty", length_penalty a);
    ("temperature", temperature);
    ("compression_ratio_threshold", compression_ratio_threshold a);
    ("log_prob_threshold", logprob_threshold a);
    ("no_speech_threshold", no_speech_threshold a);
    ("condition_on_previous_text", condition_on_previous_text a);
    ("initial_prompt", initial_prompt a);
    ("prefix", PyNone);
    ("suppress_blank", PyBool true);
    ("suppress_tokens", PyList [PyInt (-1)]);
    ("without_timestamps", PyBool false);
    ("max_initial_timestamp", PyFloat 1);
    ("word_timestamps", PyBool (word_timestamps a));
    ("vad_filter", enable_vad a);
    ("vad_parameters", vad_parameters a)
  ].

(** The keyword arguments of the translation pass. *)
Definition translate_kwargs (temperature : pyvalue) : gmap string pyvalue :=
  list_to_map [
    ("task", PyStr "translate");
    ("temperature", temperature)
  ].

Definition predict (self : Predictor) (a : PredictArgs)
    : M (gmap string pyvalue) :=
  if bool_decide (model_name a ∉ AVAILABLE_MODELS) then
    raise (ValueError ("Invalid model name: " +:+ model_name a
                       +:+ ". Available models are: "
                       +:+ str_set AVAILABLE_MODELS))
  else
    model ←
      match model self with
      | None =>
          raise (RuntimeError
                   "Model not loaded. Ensure setup() was called successfully.")
      | Some model =>
          print ("Using cached model: " +:+ model_name a);; mret model
      end;
    temperature ← lift (temperature_setting a);
    '(segments, info) ←
      call_transcribe model (audio a) (transcribe_kwargs a temperature);
    transcription_output ← format_segments (transcription a) segments;
    translation_output ←
      (if translate a then
         '(translation_segments, _) ←
           call_transcribe model (audio a) (translate_kwargs temperature);
         out ← format_segments (translation a) translation_segments;
         mret (PyStr out)
       else mret PyNone);
    let results : gmap string pyvalue :=
      list_to_map [
        ("segments", PyList (serialize_segments segments));
        ("detected_language", PyStr (info_language info));
        ("transcription", PyStr transcription_output);
        ("translation", translation_output);
        ("device", PyStr (if cuda_is_available then "cuda" else "cpu"));
        ("model", PyStr (model_name a))
      ] in
    if word_timestamps a then
      word_timestamps_list ← lift (word_timestamps_loop segments []);
      mret (<["word_timestamps" := PyList word_timestamps_list]> results)
    else mret results.

End Predictor.

(** ** The output formats in the words of the specification *)

(** [enumerate(l, start)] as a list of pairs. *)
Fixpoint enumerate {A} (start : Z) (l : list A) : list (Z * A) :=
  match l with
  | [] => []
  | x :: rest => (start, x) :: enumerate (start + 1) rest
  end.

(** The line "start --> end", hours always shown, with the given decimal
    separator. *)
Definition timestamp_line (marker : string) (segment : Segment.t)
    : res string :=
  t_start ← format_timestamp (Segment.start segment) true marker;
  t_end ← format_timestamp (Segment.end_ segment) true marker;
  Ok (t_start +:+ " --> " +:+ t_end).

(** A cue: the timestamp line, the text line, a blank line. *)
Definition cue_block (marker : string) (line : Segment.t -> string)
    (segment : Segment.t) : res string :=
  stamps ← timestamp_line marker segment;
  Ok (stamps +:+ Py.LF +:+ line segment +:+ Py.LF +:+ Py.LF).

(** A numbered cue: the index line, then the cue with comma timestamps. *)
Definition srt_block (line : Segment.t -> string) (entry : Z * Segment.t)
    : res string :=
  cue ← cue_block "," line entry.2;
  Ok (Py.str_int entry.1 +:+ Py.LF +:+ cue).

(** The concatenation of the blocks, in segment order. *)
Definition srt_document (line : Segment.t -> string)
    (transcript : list Segment.t) : res string :=
  Py.join "" <$> mapM (srt_block line) (enumerate 1 transcript).

Definition vtt_document (line : Segment.t -> string)
    (transcript : list Segment.t) : res string :=
  Py.join "" <$> mapM (cue_block "." line) transcript.

(** The offset in whole milliseconds, when it is a non-negative finite
    number. *)
Definition offset_ms (seconds : float) : res Z :=
  if negb (0 <=? seconds)%float
  then Raise (AssertionError "non-negative timestamp expected")
  else Py.round (seconds * 1000)%float.

(** hours:minutes:seconds, the separator, the milliseconds. *)
Definition clock (marker : string) (ms : Z) : string :=
  Py.format_0d 2 (ms / 3600000) +:+ ":"
  +:+ Py.format_0d 2 (ms / 60000 mod 60) +:+ ":"
  +:+ Py.format_0d 2 (ms / 1000 mod 60) +:+ marker
  +:+ Py.format_0d 3 (ms mod 1000).

(** The text line as "the segment text stripped of leading and trailing
    whitespace". *)
Definition stripped_text (segment : Segment.t) : string :=
  Py.strip (Segment.text segment).

(** [t] is [s] without its leading whitespace: [s] is a run of whitespace
    followed by [t], and [t] does not begin with whitespace. *)
Definition left_trimmed (s t : string) : Prop :=
  exists ws,
    s = ws +:+ t /\
    forallb Py.isspace (String.list_ascii_of_string ws) = true /\
    match t with
    | EmptyString => True
    | String c _ => Py.isspace c = false
    end.

(** The rewriting of arrows, [s.replace('-->', '->')]. *)
Abbreviation rewrite_arrows := (Py.replace "-->" "->").

(** The four selectors of the specification. *)
Definition known_formats : list string :=
  ["plain_text"; "formatted_text"; "srt"; "vtt"].

(** ** Sample data *)

Definition sample_segment (ident : Z) (t0 t1 : float) (s : string)
    (ws : option (list Word.t)) : Segment.t :=
  {| Segment.id := ident; Segment.seek := 0;
     Segment.start := t0; Segment.end_ := t1; Segment.text := s;
     Segment.tokens := [50364; 2425; 1002];
     Segment.temperature := 0; Segment.avg_logprob := (-0.25)%float;
     Segment.compression_ratio := 1.5%float;
     Segment.no_speech_prob := 0.125%float; Segment.words := ws |}.

(** start=0, end=1.5, text=" Hello world " *)
Definition hello_segment : Segment.t :=
  sample_segment 0 0 1.5 " Hello world " None.

Definition arrow_segment : Segment.t :=
  sample_segment 1 1.5 2 " a --> b " None.

(** The mapping [results] of [predict] before the word list is added. *)
Definition response (cuda_is_available : bool) (a : PredictArgs)
    (segments : list Segment.t) (info : TranscriptionInfo)
    (transcription_output : string) (translation_output : pyvalue)
    : gmap string pyvalue :=
  list_to_map [
    ("segments", PyList (serialize_segments segments));
    ("detected_language", PyStr (info_language info));
    ("transcription", PyStr transcription_output);
    ("translation", translation_output);
    ("device", PyStr (if cuda_is_available then "cuda" else "cpu"));
    ("model", PyStr (model_name a))
  ].

(** [v] is a dictionary carrying the fields of [segment] the response
    promises. *)
Definition serialized_as (segment : Segment.t) (v : pyvalue) : Prop :=
  exists d : gmap string pyvalue,
    v = PyDict d /\
    d !! "id" = Some (PyInt (Segment.id segment)) /\
    d !! "start" = Some (PyFloat (Segment.start segment)) /\
    d !! "end" = Some (PyFloat (Segment.end_ segment)) /\
    d !! "text" = Some (PyStr (Segment.text segment)) /\
    d !! "tokens" = Some (PyList (map PyInt (Segment.tokens segment))) /\
    d !! "temperature" = Some (PyFloat (Segment.temperature segment)) /\
    d !! "avg_logprob" = Some (PyFloat (Segment.avg_logprob segment)) /\
    d !! "compression_ratio"
      = Some (PyFloat (Segment.compression_ratio segment)) /\
    d !! "no_speech_prob" = Some (PyFloat (Segment.no_speech_prob segment)).

(** [v] is a dictionary holding the text and the two offsets of [word]
    under the keys word, start and end, and nothing else. *)
Definition word_entry_of (word : Word.t) (v : pyvalue) : Prop :=
  exists d : gmap string pyvalue,
    v = PyDict d /\
    d !! "word" = Some (PyStr (Word.word word)) /\
    d !! "start" = Some (PyFloat (Word.start word)) /\
    d !! "end" = Some (PyFloat (Word.end_ word)) /\
    dom d = {[ "word"; "start"; "end" ]}.

(** The same call with another value for [suppress_tokens]. *)
Definition with_suppress_tokens (v : pyvalue) (a : PredictArgs) : PredictArgs :=
  {| audio := audio a; model_name := model_name a;
     transcription := transcription a; translate := translate a;
     translation := translation a; language := language a;
     temperature := temperature a; best_of := best_of a;
     beam_size := beam_size a; patience := patience a;
     length_penalty := length_penalty a; suppress_tokens := v;
     initial_prompt := initial_prompt a;
     condition_on_previous_text := condition_on_previous_text a;
     temperature_increment_on_fallback := temperature_increment_on_fallback a;
     compression_ratio_threshold := compression_ratio_threshold a;
     logprob_threshold := logprob_threshold a;
     no_speech_threshold := no_speech_threshold a;
     enable_vad := enable_vad a; vad_parameters := vad_parameters a;
     word_timestamps := word_timestamps a |}.

(** The library calls of a run, in order: the audio and the keyword
    arguments of each [transcribe]. *)
Fixpoint transcribe_calls (events : list event)
    : list (string * gmap string pyvalue) :=
  match events with
  | [] => []
  | EvTranscribe audio kwargs :: rest =>
      (audio, kwargs) :: transcribe_calls rest
  | _ :: rest => transcribe_calls rest
  end.

Definition not_loaded : exn :=
  RuntimeError "Model not loaded. Ensure setup() was called successfully.".

(** An exception other than the model-not-loaded error of [predict]. *)
Definition other_than_not_loaded (e : exn) : Prop :=
  match e with
  | RuntimeError _ => False
  | _ => True
  end.

Definition sample_words : list Word.t :=
  [ {| Word.start := 0; Word.end_ := 0.5; Word.word := " Hello";
       Word.probability := 0.875 |};
    {| Word.start := 0.5; Word.end_ := 1.5; Word.word := " world";
       Word.probability := 0.75 |} ].

(** A model that hears two segments, and one when asked to translate. *)
Definition sample_model : WhisperModel :=
  {| transcribe := fun _ kwargs =>
       match kwargs !! "task" with
       | Some (PyStr task) =>
           if String.eqb task "translate"
           then Returned ([sample_segment 0 0 2 " Hello there" None],
                          {| info_language := "fr" |})
           else Returned ([sample_segment 0 0 1.5 " Bonjour " (Some sample_words);
                           sample_segment 1 1.5 2 " la --> bas" (Some [])],
                          {| info_language := "fr" |})
       | _ => Raised "task"
       end |}.

Definition sample_arange (start stop step : pyvalue)
    : lib_result (list pyvalue) :=
  Returned [PyFloat 0; PyFloat 0.5; PyFloat 1].

Definition sample_args : PredictArgs :=
  {| audio := "/tmp/audio.wav"; model_name := "large-v2";
     transcription := "srt"; translate := true;
     translation := "plain_text"; language := PyNone;
     temperature := PyInt 0; best_of := PyInt 5;
     beam_size := PyInt 5; patience := PyInt 1;
     length_penalty := PyNone; suppress_tokens := PyStr "-1";
     initial_prompt := PyNone;
     condition_on_previous_text := PyBool true;
     temperature_increment_on_fallback := PyFloat 0.5;
     compression_ratio_threshold := PyFloat 2.5;
     logprob_threshold := PyFloat (-1);
     no_speech_threshold := PyFloat 0.5;
     enable_vad := PyBool false; vad_parameters := PyNone;
     word_timestamps := true |}.

(** The call with the defaults of [predict] for the model name. *)
Definition base_args : PredictArgs :=
  {| audio := "/tmp/audio.wav"; model_name := "base";
     transcription := "plain_text"; translate := false;
     translation := "plain_text"; language := PyNone;
     temperature := PyInt 0; best_of := PyInt 5;
     beam_size := PyInt 5; patience := PyInt 1;
     length_penalty := PyNone; suppress_tokens := PyStr "-1";
     initial_prompt := PyNone;
     condition_on_previous_text := PyBool true;
     temperature_increment_on_fallback := PyFloat 0.5;
     compression_ratio_threshold := PyFloat 2.5;
     logprob_threshold := PyFloat (-1);
     no_speech_threshold := PyFloat 0.5;
     enable_vad := PyBool false; vad_parameters := PyNone;
     word_timestamps := false |}.

Definition sample_loader (name device compute_type : string) (threads : Z)
    : lib_result WhisperModel :=
  Returned sample_model.

Definition failing_loader (name device compute_type : string) (threads : Z)
    : lib_result WhisperModel :=
  Raised "CUDA out of memory".

(** A predictor after a successful setup, and what it answers to
    [sample_args]. *)
Definition sample_predictor : Predictor := {| model := Some sample_model |}.

Definition sample_response : gmap string pyvalue :=
  match outcome (predict true sample_arange sample_predictor sample_args) with
  | Ok r => r
  | Raise _ => ∅
  end.

(** ** Further notions for the properties of the code *)

(** A fallible computation that returns. *)
Definition returns {A} (r : res A) : Prop := exists a, r = Ok a.

(** A string that does not begin with whitespace. *)
Definition starts_clean (s : string) : Prop :=
  match s with
  | EmptyString => True
  | String c _ => Py.isspace c = false
  end.

(** The separator of the two text formats: plain_text and every unknown
    selector join with a space, formatted_text with a line feed. *)
Definition text_separator (format_type : string) : string :=
  if String.eqb format_type "formatted_text" then Py.LF else " ".

(** The entry of a dictionary value under a key. *)
Definition dict_get (k : string) (v : pyvalue) : option pyvalue :=
  match v with
  | PyDict d => d !! k
  | _ => None
  end.

(** Two segments that differ at most in their [words]. *)
Definition same_but_words (s1 s2 : Segment.t) : Prop :=
  Segment.id s1 = Segment.id s2 /\
  Segment.seek s1 = Segment.seek s2 /\
  Segment.start s1 = Segment.start s2 /\
  Segment.end_ s1 = Segment.end_ s2 /\
  Segment.text s1 = Segment.text s2 /\
  Segment.tokens s1 = Segment.tokens s2 /\
  Segment.temperature s1 = Segment.temperature s2 /\
  Segment.avg_logprob s1 = Segment.avg_logprob s2 /\
  Segment.compression_ratio s1 = Segment.compression_ratio s2 /\
  Segment.no_speech_prob s1 = Segment.no_speech_prob s2.

(** The keys of a serialized segment. *)
Definition segment_keys : gset string :=
  {[ "id"; "seek"; "start"; "end"; "text"; "tokens"; "temperature";
     "avg_logprob"; "compression_ratio"; "no_speech_prob" ]}.

(** The keys of the response without the word list. *)
Definition response_keys : gset string :=
  {[ "segments"; "detected_language"; "transcription"; "translation";
     "device"; "model" ]}.

(** The exceptions of the formatting of an offset. *)
Definition timestamp_error (e : exn) : Prop :=
  e = AssertionError "non-negative timestamp expected" \/
  e = OverflowError "cannot convert float infinity to integer" \/
  e = ValueError "cannot convert float NaN to integer".

(** The two selectors whose writers format offsets. *)
Definition subtitle_format (format_type : string) : Prop :=
  format_type = "srt" \/ format_type = "vtt".

(** The same call without the translation pass. *)
Definition without_translation (a : PredictArgs) : PredictArgs :=
  {| audio := audio a; model_name := model_name a;
     transcription := transcription a; translate := false;
     translation := translation a; language := language a;
     temperature := temperature a; best_of := best_of a;
     beam_size := beam_size a; patience := patience a;
     length_penalty := length_penalty a;
     suppress_tokens := suppress_tokens a;
     initial_prompt := initial_prompt a;
     condition_on_previous_text := condition_on_previous_text a;
     temperature_increment_on_fallback := temperature_increment_on_fallback a;
     compression_ratio_threshold := compression_ratio_threshold a;
     logprob_threshold := logprob_threshold a;
     no_speech_threshold := no_speech_threshold a;
     enable_vad := enable_vad a; vad_parameters := vad_parameters a;
     word_timestamps := word_timestamps a |}.

(** A segment whose start offset is negative. *)
Definition early_segment : Segment.t :=
  sample_segment 2 (-1) 2 " too early " None.

(** ** builder/fetch_models.py *)

Module Builder.

(** What the build script does, in order. *)
Inductive event : Type :=
  | Print (line : string)
  | Download (selected_model : string) (cache_dir : pyvalue).

(** Only download large-v2 model. *)
Definition model_name : string := "large-v2".

Section Script.

(** [faster_whisper.utils.download_model(name, cache_dir=)], which gives the
    path of the downloaded model. *)
Variable download_model : string -> pyvalue -> lib_result string.

Definition download_model_weights (selected_model : string)
    : list event * res unit :=
  let started :=
    [Print ("Downloading " +:+ selected_model +:+ "...");
     Download selected_model PyNone] in
  match download_model selected_model PyNone with
  | Returned _ =>
      (started ++ [Print ("Finished downloading " +:+ selected_model +:+ ".")],
       Ok tt)
  | Raised msg => (started, Raise (LibraryError msg))
  end.

(** The body of the module: download only large-v2, then report again. *)
Definition script : list event * res unit :=
  let run := download_model_weights model_name in
  match run.2 with
  | Ok _ =>
      (run.1 ++ [Print ("Finished downloading " +:+ model_name +:+ ".")],
       Ok tt)
  | Raise e => (run.1, Raise e)
  end.

End Script.

(** The model names a run asked the library to download. *)
Fixpoint downloads (events : list event) : list string :=
  match events with
  | [] => []
  | Download selected_model _ :: rest => selected_model :: downloads rest
  | Print _ :: rest => downloads rest
  end.

End Builder.

(** A download that fails. *)
Definition failing_download (name : string) (cache_dir : pyvalue)
    : lib_result string :=
  Raised "connection refused".

(** ** Strings *)

Lemma append_cons (c : ascii) (s t : string) :
  String c s +:+ t = String c (s +:+ t).
Proof. reflexivity. Qed.

Lemma append_nil_l (s : string) : "" +:+ s = s.
Proof. reflexivity. Qed.

Lemma append_nil_r (s : string) : s +:+ "" = s.
Proof. induction s as [|c s IH]; [done | by rewrite append_cons, IH]. Qed.

Lemma append_assoc (s1 s2 s3 : string) :
  (s1 +:+ s2) +:+ s3 = s1 +:+ (s2 +:+ s3).
Proof. induction s1 as [|c s1 IH]; [done | by rewrite !append_cons, IH]. Qed.

Lemma join_empty_cons (x : string) (l : list string) :
  Py.join "" (x :: l) = x +:+ Py.join "" l.
Proof. destruct l; simpl; [by rewrite append_nil_r | done]. Qed.

(** ** The subtitle writers produce the documents of the specification *)

Lemma mapM_res_cons {A B} (f : A -> res B) (x : A) (l : list A) :
  mapM f (x :: l) = y ← f x; k ← mapM f l; Ok (y :: k).
Proof. reflexivity. Qed.

Lemma cue_block_eq (marker : string) (line : Segment.t -> string)
    (segment : Segment.t) :
  cue_block marker line segment
  = t_start ← format_timestamp (Segment.start segment) true marker;
    t_end ← format_timestamp (Segment.end_ segment) true marker;
    Ok ((t_start +:+ " --> " +:+ t_end)
        +:+ Py.LF +:+ line segment +:+ Py.LF +:+ Py.LF).
Proof.
  unfold cue_block, timestamp_line.
  destruct (format_timestamp (Segment.start segment) true marker);
    [|reflexivity].
  by destruct (format_timestamp (Segment.end_ segment) true marker).
Qed.

Lemma srt_block_eq (line : Segment.t -> string) (i : Z)
    (segment : Segment.t) :
  srt_block line (i, segment)
  = t_start ← format_timestamp (Segment.start segment) true ",";
    t_end ← format_timestamp (Segment.end_ segment) true ",";
    Ok (Py.str_int i +:+ Py.LF
        +:+ (t_start +:+ " --> " +:+ t_end)
        +:+ Py.LF +:+ line segment +:+ Py.LF +:+ Py.LF).
Proof.
  unfold srt_block. cbn [fst snd]. rewrite cue_block_eq.
  destruct (format_timestamp (Segment.start segment) true ",");
    [|reflexivity].
  by destruct (format_timestamp (Segment.end_ segment) true ",").
Qed.

Lemma write_srt_loop_blocks (transcript : list Segment.t) :
  forall (i : Z) (result : string),
    write_srt_loop i transcript result
    = (fun blocks => result +:+ Py.join "" blocks)
        <$> mapM (srt_block cue_text) (enumerate i transcript).
Proof.
  induction transcript as [|segment rest IH]; intros i result.
  - cbn. by rewrite append_nil_r.
  - cbn [write_srt_loop enumerate]. rewrite mapM_res_cons.
    rewrite srt_block_eq.
    destruct (format_timestamp (Segment.start segment) true ",") as [ts|e];
      [|reflexivity].
    destruct (format_timestamp (Segment.end_ segment) true ",") as [te|e];
      [|reflexivity].
    cbn [mbind res_bind]. rewrite IH.
    destruct (mapM (srt_block cue_text) (enumerate (i + 1) rest));
      [|reflexivity].
    cbn [mbind res_bind fmap res_fmap]. f_equal. rewrite join_empty_cons.
    by rewrite !append_assoc.
Qed.

Lemma write_srt_document (transcript : list Segment.t) :
  write_srt transcript = srt_document cue_text transcript.
Proof.
  unfold write_srt, srt_document. rewrite write_srt_loop_blocks.
  by destruct (mapM _ _).
Qed.

Lemma write_vtt_loop_blocks (transcript : list Segment.t) :
  forall result : string,
    write_vtt_loop transcript result
    = (fun blocks => result +:+ Py.join "" blocks)
        <$> mapM (cue_block "." cue_text) transcript.
Proof.
  induction transcript as [|segment rest IH]; intros result.
  - cbn. by rewrite append_nil_r.
  - cbn [write_vtt_loop]. rewrite mapM_res_cons, cue_block_eq.
    destruct (format_timestamp (Segment.start segment) true ".") as [ts|e];
      [|reflexivity].
    destruct (format_timestamp (Segment.end_ segment) true ".") as [te|e];
      [|reflexivity].
    cbn [mbind res_bind]. rewrite IH.
    destruct (mapM (cue_block "." cue_text) rest); [|reflexivity].
    cbn [mbind res_bind fmap res_fmap]. f_equal. rewrite join_empty_cons.
    by rewrite !append_assoc.
Qed.

Lemma write_vtt_document (transcript : list Segment.t) :
  write_vtt transcript = vtt_document cue_text transcript.
Proof.
  unfold write_vtt, vtt_document. rewrite write_vtt_loop_blocks.
  by destruct (mapM _ _).
Qed.

(** ** Trimming and rewriting *)

Lemma lstrip_left_trimmed (s : string) : left_trimmed s (Py.lstrip s).
Proof.
  induction s as [|c r IH].
  - by exists "".
  - cbn [Py.lstrip]. destruct (Py.isspace c) eqn:Hc.
    + destruct IH as (ws & Hs & Hws & Hhead).
      exists (String c ws). split_and!; [| |done].
      * by rewrite append_cons, <- Hs.
      * cbn. by rewrite Hc, Hws.
    + exists "". by rewrite Hc.
Qed.

Lemma left_trimmed_unique (s t1 t2 : string) :
  left_trimmed s t1 -> left_trimmed s t2 -> t1 = t2.
Proof.
  intros (ws1 & -> & Hws1 & Hh1) (ws2 & Heq & Hws2 & Hh2).
  revert ws2 Heq Hws2.
  induction ws1 as [|c ws1 IH]; intros [|d ws2] Heq Hws2;
    rewrite ?append_cons, ?append_nil_l in Heq.
  - done.
  - subst t1. cbn in Hws2. rewrite Hh1 in Hws2. done.
  - subst t2. cbn in Hws1. rewrite Hh2 in Hws1. done.
  - injection Heq as -> Heq. cbn in Hws1, Hws2.
    apply andb_prop in Hws1 as [_ Hws1]. apply andb_prop in Hws2 as [_ Hws2].
    by apply (IH Hws1 ws2).
Qed.

Lemma rewrite_arrows_match (s : string) :
  rewrite_arrows ("-->" +:+ s) = "->" +:+ rewrite_arrows s.
Proof. reflexivity. Qed.

Lemma rewrite_arrows_other (c : ascii) (s : string) :
  Py.startswith "-->" (String c s) = false ->
  rewrite_arrows (String c s) = String c (rewrite_arrows s).
Proof. intros H. unfold Py.replace. cbn [Py.replace_from]. by rewrite H. Qed.

Lemma startswith_split (p s : string) :
  Py.startswith p s = true -> exists t, s = p +:+ t.
Proof.
  revert s. induction p as [|a p IH]; intros s H.
  - by exists s.
  - destruct s as [|b s]; [done|]. cbn [Py.startswith] in H.
    apply andb_prop in H as [Hab Hps]. apply Ascii.eqb_eq in Hab as ->.
    destruct (IH _ Hps) as [t ->]. by exists t.
Qed.






Lemma rstrip_cons (c : ascii) (s : string) :
  Py.isspace c = false -> Py.rstrip (String c s) = String c (Py.rstrip s).
Proof.
  intros Hc. cbn [Py.rstrip]. destruct (Py.rstrip s); [by rewrite Hc|done].
Qed.



(** ** Timestamps *)

(** With the hours asked for, a timestamp reads hours:minutes:seconds, the
    separator, and the milliseconds, of the offset rounded to milliseconds. *)
Lemma format_timestamp_clock (seconds : float) (marker : string) :
  format_timestamp seconds true marker = clock marker <$> offset_ms seconds.
Proof.
  unfold format_timestamp, offset_ms.
  destruct (negb (0 <=? seconds)%float); [reflexivity|].
  destruct (Py.round (seconds * 1000)%float) as [ms|e]; [|reflexivity].
  cbn [mbind res_bind fmap res_fmap orb]. unfold clock.
  rewrite append_assoc. do 2 f_equal.
  replace ((ms - ms / 3600000 * 3600000) / 60000) with (ms / 60000 mod 60)
    by (Z.div_mod_to_equations; lia).
  do 3 f_equal.
  replace ((ms - ms / 3600000 * 3600000
            - (ms / 60000 mod 60) * 60000) / 1000)
    with (ms / 1000 mod 60) by (Z.div_mod_to_equations; lia).
  do 3 f_equal.
  Z.div_mod_to_equations; lia.
Qed.

(** ** The claims on the output formats *)

(** C1, as stated, fails: the text line of an srt block is not always the
    stripped segment text. For the text " a --> b " the code writes the
    line "a -> b". *)
Lemma C1_text_line_is_not_the_stripped_text :
  write_srt [arrow_segment] <> srt_document stripped_text [arrow_segment].
Proof. vm_compute. discriminate. Qed.

(** C1 (amended): for every segment sequence the srt output is the
    concatenation, per segment in order, of a block made of the 1-based index
    line, the line "start --> end" with comma timestamps and the hours always
    shown, the segment text stripped of leading and trailing whitespace with
    each "-->" in it rewritten to "->", and a blank line; formatting raises
    where an offset does not format. The segment start=0, end=1.5,
    text=" Hello world " yields "00:00:00,000 --> 00:00:01,500" and
    "Hello world". *)
Theorem C1_write_srt_numbered_blocks :
  (forall transcript : list Segment.t,
     write_srt transcript = srt_document cue_text transcript) /\
  (forall segment : Segment.t,
     cue_text segment = rewrite_arrows (stripped_text segment)) /\
  (forall seconds : float,
     format_timestamp seconds true "," = clock "," <$> offset_ms seconds) /\
  write_srt [hello_segment]
  = Ok ("1" +:+ Py.LF +:+ "00:00:00,000 --> 00:00:01,500" +:+ Py.LF
        +:+ "Hello world" +:+ Py.LF +:+ Py.LF).
Proof.
  split_and!.
  - apply write_srt_document.
  - reflexivity.
  - intros. apply format_timestamp_clock.
  - vm_compute. reflexivity.
Qed.

(** C2: for every segment sequence the vtt output is the concatenation of
    the same blocks as srt (timestamp line, text line, blank line) without
    the index line and with a period in the timestamps, the hours always
    shown. For start=0, end=1.5 the timestamp line is
    "00:00:00.000 --> 00:00:01.500". *)
Theorem C2_write_vtt_blocks :
  (forall transcript : list Segment.t,
     write_vtt transcript = vtt_document cue_text transcript) /\
  (forall transcript : list Segment.t,
     write_srt transcript = srt_document cue_text transcript) /\
  (forall (line : Segment.t -> string) (i : Z) (segment : Segment.t),
     srt_block line (i, segment)
     = (fun cue => Py.str_int i +:+ Py.LF +:+ cue)
         <$> cue_block "," line segment) /\
  (forall seconds : float,
     format_timestamp seconds true "." = clock "." <$> offset_ms seconds) /\
  write_vtt [hello_segment]
  = Ok ("00:00:00.000 --> 00:00:01.500" +:+ Py.LF
        +:+ "Hello world" +:+ Py.LF +:+ Py.LF).
Proof.
  split_and!.
  - apply write_vtt_document.
  - apply write_srt_document.
  - intros. unfold srt_block. cbn [fst snd].
    by destruct (cue_block "," line segment).
  - intros. apply format_timestamp_clock.
  - vm_compute. reflexivity.
Qed.

(** C3: for every segment sequence the formatted_text output is the segment
    texts, each without its leading whitespace and otherwise unchanged,
    joined by the newline character, in segment order. *)
Theorem C3_formatted_text_lines (segments : list Segment.t) :
  format_segments "formatted_text" segments
  = MkM [] (Ok (Py.join Py.LF
                  (map (fun segment => Py.lstrip (Segment.text segment))
                     segments))) /\
  Forall (fun segment =>
            left_trimmed (Segment.text segment)
              (Py.lstrip (Segment.text segment))) segments.
Proof.
  split; [reflexivity|].
  apply Forall_forall. intros segment _. apply lstrip_left_trimmed.
Qed.

(** C4: for every format selector outside plain_text, formatted_text, srt and
    vtt, and every segment sequence, format_segments prints the warning and
    returns what it returns for plain_text: the left-trimmed texts joined
    by single spaces. *)
Theorem C4_unknown_format_is_plain_text (format_type : string)
    (segments : list Segment.t) :
  format_type ∉ known_formats ->
  format_segments format_type segments
  = MkM [EvPrint ("Warning: Unknown format '" +:+ format_type
                  +:+ "', defaulting to plain text.")]
        (Ok (Py.join " "
               (map (fun segment => Py.lstrip (Segment.text segment))
                  segments))) /\
  outcome (format_segments format_type segments)
  = outcome (format_segments "plain_text" segments) /\
  log (format_segments "plain_text" segments) = [].
Proof.
  intros Hunknown. unfold known_formats in Hunknown.
  rewrite !not_elem_of_cons in Hunknown.
  destruct Hunknown as (Hplain & Hformatted & Hsrt & Hvtt & _).
  apply String.eqb_neq in Hplain, Hformatted, Hsrt, Hvtt.
  assert (format_segments format_type segments
          = MkM [EvPrint ("Warning: Unknown format '" +:+ format_type
                          +:+ "', defaulting to plain text.")]
              (Ok (Py.join " "
                     (map (fun segment => Py.lstrip (Segment.text segment))
                        segments)))) as Heq.
  { unfold format_segments.
    by rewrite Hplain, Hformatted, Hsrt, Hvtt. }
  rewrite Heq. done.
Qed.

Lemma C4_witness :
  outcome (format_segments "json" [hello_segment; arrow_segment])
  = outcome (format_segments "plain_text" [hello_segment; arrow_segment]).
Proof.
  apply (C4_unknown_format_is_plain_text "json").
  unfold known_formats. rewrite !not_elem_of_cons.
  split_and!; [discriminate.. | apply not_elem_of_nil].
Defined.



(** ** The monad of logged computations *)

Lemma outcome_bind {A B} (m : M A) (f : A -> M B) :
  outcome (m ≫= f)
  = match outcome m with
    | Ok a => outcome (f a)
    | Raise e => Raise e
    end.
Proof. unfold mbind, M_bind. by destruct (outcome m). Qed.

Lemma log_bind {A B} (m : M A) (f : A -> M B) :
  log (m ≫= f)
  = match outcome m with
    | Ok a => log m ++ log (f a)
    | Raise _ => log m
    end.
Proof. unfold mbind, M_bind. by destruct (outcome m). Qed.


(** Running a computation of [M]: its outcome and its log, bind by bind. *)
Ltac run_in H :=
  repeat first
    [ rewrite outcome_bind in H
    | rewrite log_bind in H
    | progress cbn [outcome log print emit raise lift mret M_ret
                    call_transcribe from_library] in H ].
Ltac run :=
  repeat first
    [ rewrite outcome_bind
    | rewrite log_bind
    | progress cbn [outcome log print emit raise lift mret M_ret
                    call_transcribe from_library] ].


(** ** What the helpers of predict can raise and log *)

Lemma round_raises x e : Py.round x = Raise e -> other_than_not_loaded e.
Proof. unfold Py.round. destruct (Prim2SF x); intros [= <-]; exact I. Qed.

Lemma format_timestamp_raises x b mk e :
  format_timestamp x b mk = Raise e -> other_than_not_loaded e.
Proof.
  unfold format_timestamp. destruct (negb _); [intros [= <-]; exact I|].
  destruct (Py.round _) as [ms|e'] eqn:Hr; [discriminate|].
  intros [= <-]. by eapply round_raises.
Qed.

Lemma write_srt_loop_raises transcript : forall i result e,
  write_srt_loop i transcript result = Raise e -> other_than_not_loaded e.
Proof.
  induction transcript as [|segment rest IH]; intros i result e; [discriminate|].
  cbn [write_srt_loop].
  destruct (format_timestamp (Segment.start segment) true ",") eqn:H1;
    [|intros [= <-]; by eapply format_timestamp_raises].
  destruct (format_timestamp (Segment.end_ segment) true ",") eqn:H2;
    [|intros [= <-]; by eapply format_timestamp_raises].
  apply IH.
Qed.

Lemma write_vtt_loop_raises transcript : forall result e,
  write_vtt_loop transcript result = Raise e -> other_than_not_loaded e.
Proof.
  induction transcript as [|segment rest IH]; intros result e; [discriminate|].
  cbn [write_vtt_loop].
  destruct (format_timestamp (Segment.start segment) true ".") eqn:H1;
    [|intros [= <-]; by eapply format_timestamp_raises].
  destruct (format_timestamp (Segment.end_ segment) true ".") eqn:H2;
    [|intros [= <-]; by eapply format_timestamp_raises].
  apply IH.
Qed.

Lemma format_segments_raises format_type segments e :
  outcome (format_segments format_type segments) = Raise e ->
  other_than_not_loaded e.
Proof.
  unfold format_segments.
  repeat (match goal with |- context [if ?b then _ else _] => destruct b end);
    run; try discriminate.
  - apply write_srt_loop_raises.
  - apply write_vtt_loop_raises.
Qed.

Lemma format_segments_no_calls format_type segments :
  transcribe_calls (log (format_segments format_type segments)) = [].
Proof.
  unfold format_segments.
  repeat (match goal with |- context [if ?b then _ else _] => destruct b end);
    run; done.
Qed.

Lemma transcribe_calls_app l1 l2 :
  transcribe_calls (l1 ++ l2) = transcribe_calls l1 ++ transcribe_calls l2.
Proof.
  induction l1 as [|[] l1 IH]; cbn; by rewrite ?IH.
Qed.

Lemma word_timestamps_loop_raises segments : forall acc e,
  word_timestamps_loop segments acc = Raise e -> other_than_not_loaded e.
Proof.
  induction segments as [|segment rest IH]; intros acc e; [discriminate|].
  cbn [word_timestamps_loop]. destruct (Segment.words segment).
  - apply IH.
  - intros [= <-]. exact I.
Qed.

Lemma fold_left_snoc {A B} (f : A -> B) (l : list A) : forall acc,
  fold_left (fun acc x => acc ++ [f x]) l acc = acc ++ map f l.
Proof.
  induction l as [|x l IH]; intros acc; cbn.
  - by rewrite app_nil_r.
  - by rewrite IH, <- app_assoc.
Qed.

Lemma word_timestamps_loop_flat segments : forall acc wl,
  word_timestamps_loop segments acc = Ok wl ->
  exists wss,
    map Segment.words segments = map Some wss /\
    wl = acc ++ map word_entry (concat wss).
Proof.
  induction segments as [|segment rest IH]; intros acc wl.
  - intros [= <-]. exists []. by rewrite app_nil_r.
  - cbn [word_timestamps_loop].
    destruct (Segment.words segment) as [ws|] eqn:Hws; [|discriminate].
    intros H. apply IH in H as (wss & Hmap & ->).
    exists (ws :: wss). cbn. rewrite Hws, Hmap. split; [done|].
    by rewrite fold_left_snoc, map_app, app_assoc.
Qed.

Lemma word_timestamps_loop_total segments wss : forall acc,
  map Segment.words segments = map Some wss ->
  word_timestamps_loop segments acc = Ok (acc ++ map word_entry (concat wss)).
Proof.
  revert wss. induction segments as [|segment rest IH]; intros [|ws wss] acc H;
    try discriminate.
  - cbn. by rewrite app_nil_r.
  - cbn in H. injection H as Hws Hrest. cbn [word_timestamps_loop].
    rewrite Hws, (IH wss _ Hrest). cbn.
    by rewrite fold_left_snoc, map_app, app_assoc.
Qed.


Ltac calls :=
  repeat (progress (cbn [transcribe_calls app];
                    rewrite ?app_nil_r, ?transcribe_calls_app,
                      ?format_segments_no_calls)).

Lemma in_available_models (name : string) :
  name ∈ AVAILABLE_MODELS <-> name = "large-v2".
Proof. unfold AVAILABLE_MODELS. by rewrite elem_of_singleton. Qed.

Lemma str_available_models : str_set AVAILABLE_MODELS = "{'large-v2'}".
Proof. unfold str_set, AVAILABLE_MODELS. by rewrite elements_singleton. Qed.

(** ** The runs of setup and predict *)

Ltac unfold_predict := unfold predict in *.
Ltac unfold_temperature_setting := unfold temperature_setting.
Ltac unfold_setup := unfold setup.

Section PredictorFacts.

Variable cuda_is_available : bool.
Variable TORCH_AVAILABLE : bool.
Variable WhisperModel_new :
  string -> string -> string -> Z -> lib_result WhisperModel.
Variable np_arange : pyvalue -> pyvalue -> pyvalue -> lib_result (list pyvalue).

Local Abbreviation predict := (predict cuda_is_available np_arange).
Local Abbreviation temperature_setting := (temperature_setting np_arange).
Local Abbreviation setup :=
  (setup cuda_is_available TORCH_AVAILABLE WhisperModel_new).

Lemma temperature_setting_raises a e :
  temperature_setting a = Raise e -> other_than_not_loaded e.
Proof.
  unfold_temperature_setting. destruct (negb _); [|discriminate].
  destruct (np_arange _ _ _); [discriminate|]. intros [= <-]. exact I.
Qed.

Lemma predict_loaded (self : Predictor) (a : PredictArgs) (m : WhisperModel) :
  model self = Some m ->
  model_name a ∈ AVAILABLE_MODELS ->
  (forall e, outcome (predict self a) = Raise e -> other_than_not_loaded e) /\
  exists rest,
    log (predict self a)
    = EvPrint ("Using cached model: " +:+ model_name a) :: rest.
Proof.
  intros Hmodel Hname. unfold_predict.
  rewrite bool_decide_false by (intros Hn; by apply Hn).
  rewrite Hmodel. run. split; [|eauto].
  intros e.
  destruct (temperature_setting a) as [T|] eqn:HT;
    [|intros [= <-]; by eapply temperature_setting_raises].
  run.
  destruct (transcribe m (audio a) (transcribe_kwargs a T))
    as [[segments info]|]; run; [|intros [= <-]; exact I].
  destruct (outcome (format_segments (transcription a) segments)) eqn:Hfmt;
    [|intros [= <-]; by eapply format_segments_raises].
  run.
  assert (forall tr, outcome (if word_timestamps a
     then lift (word_timestamps_loop segments []) ≫= λ wl, mret (<["word_timestamps" := PyList wl]> (response cuda_is_available a segments info a0 tr))
     else mret (response cuda_is_available a segments info a0 tr)) = Raise e -> other_than_not_loaded e) as Hlast.
  { intros tr. destruct (word_timestamps a); run; [|discriminate].
    destruct (word_timestamps_loop segments []) eqn:Hw; [discriminate|].
    intros [= <-]. by eapply word_timestamps_loop_raises. }
  destruct (translate a); run; [|apply Hlast].
  destruct (transcribe m (audio a) (translate_kwargs T))
    as [[segments2 info2]|]; run; [|intros [= <-]; exact I].
  destruct (outcome (format_segments (translation a) segments2)) eqn:Hfmt2;
    [|intros [= <-]; by eapply format_segments_raises].
  run. apply Hlast.
Qed.


Lemma predict_Ok_inv (self : Predictor) (a : PredictArgs) (r : gmap string pyvalue) :
  outcome (predict self a) = Ok r ->
  exists m T segments info tout trout trlog,
    model_name a ∈ AVAILABLE_MODELS /\
    model self = Some m /\
    temperature_setting a = Ok T /\
    transcribe m (audio a) (transcribe_kwargs a T) = Returned (segments, info) /\
    outcome (format_segments (transcription a) segments) = Ok tout /\
    (if translate a
     then exists segments2 info2 out2,
            transcribe m (audio a) (translate_kwargs T) = Returned (segments2, info2) /\
            outcome (format_segments (translation a) segments2) = Ok out2 /\
            trout = PyStr out2 /\
            trlog = EvTranscribe (audio a) (translate_kwargs T)
                    :: log (format_segments (translation a) segments2)
     else trout = PyNone /\ trlog = []) /\
    (if word_timestamps a
     then exists wl, word_timestamps_loop segments [] = Ok wl /\
            r = <["word_timestamps" := PyList wl]>
                  (response cuda_is_available a segments info tout trout)
     else r = response cuda_is_available a segments info tout trout) /\
    log (predict self a)
    = EvPrint ("Using cached model: " +:+ model_name a)
      :: EvTranscribe (audio a) (transcribe_kwargs a T)
      :: log (format_segments (transcription a) segments) ++ trlog.
Proof.
  intros H. unfold_predict.
  destruct (bool_decide (model_name a ∉ AVAILABLE_MODELS)) eqn:Hname;
    [discriminate H|].
  apply bool_decide_eq_false in Hname. apply dec_stable in Hname.
  run_in H; run.
  destruct (model self) as [m|] eqn:Hmodel; [|discriminate H].
  run_in H; run.
  destruct (temperature_setting a) as [T|] eqn:HT; [|discriminate H].
  run_in H; run.
  destruct (transcribe m (audio a) (transcribe_kwargs a T))
    as [[segments info]|] eqn:Hrun; [|discriminate H].
  run_in H; run.
  destruct (outcome (format_segments (transcription a) segments))
    as [tout|] eqn:Hfmt; [|discriminate H].
  run_in H; run.
  destruct (translate a) eqn:Htr.
  - run_in H; run.
    destruct (transcribe m (audio a) (translate_kwargs T))
      as [[segments2 info2]|] eqn:Hrun2; [|discriminate H].
    run_in H; run.
    destruct (outcome (format_segments (translation a) segments2))
      as [out2|] eqn:Hfmt2; [|discriminate H].
    run_in H; run.
    exists m, T, segments, info, tout, (PyStr out2),
      (EvTranscribe (audio a) (translate_kwargs T)
       :: log (format_segments (translation a) segments2)).
    split_and!; try done; [by eauto 10| |].
    + destruct (word_timestamps a).
      * run_in H. destruct (word_timestamps_loop segments []) as [wl|];
          [|discriminate H]. injection H as <-. by exists wl.
      * by injection H as <-.
    + destruct (word_timestamps a); run.
      * destruct (word_timestamps_loop segments []); cbn; by rewrite ?app_nil_r.
      * cbn; by rewrite ?app_nil_r.
  - run_in H; run.
    exists m, T, segments, info, tout, PyNone, [].
    split_and!; try done.
    + destruct (word_timestamps a).
      * run_in H. destruct (word_timestamps_loop segments []) as [wl|];
          [|discriminate H]. injection H as <-. by exists wl.
      * by injection H as <-.
    + destruct (word_timestamps a); run.
      * destruct (word_timestamps_loop segments []); cbn; by rewrite ?app_nil_r.
      * cbn; by rewrite ?app_nil_r.
Qed.

Lemma clear_cuda_cache_outcome announce :
  outcome (clear_cuda_cache cuda_is_available TORCH_AVAILABLE announce) = Ok tt.
Proof.
  unfold clear_cuda_cache.
  destruct cuda_is_available, TORCH_AVAILABLE, announce; reflexivity.
Qed.

Lemma setup_outcome (self : Predictor) :
  match WhisperModel_new "large-v2"
          (if cuda_is_available then "cuda" else "cpu")
          (if cuda_is_available then "float16" else "int8")
          (if negb cuda_is_available then 4 else 0) with
  | Returned m =>
      (setup self).1 = {| model := Some m |} /\
      outcome (setup self).2 = Ok tt
  | Raised msg =>
      (setup self).1 = self /\
      outcome (setup self).2
      = Raise (RuntimeError
                 ("Failed to load large-v2 model during setup: " +:+ msg))
  end.
Proof.
  unfold_setup.
  destruct (WhisperModel_new _ _ _ _); cbn [fst snd]; split; try done;
    run; rewrite ?clear_cuda_cache_outcome; run; by rewrite ?clear_cuda_cache_outcome.
Qed.

Lemma predict_calls (self : Predictor) (a : PredictArgs) :
  transcribe_calls (log (predict self a)) = [] \/
  exists T,
    temperature_setting a = Ok T /\
    (transcribe_calls (log (predict self a))
     = [(audio a, transcribe_kwargs a T)] \/
     transcribe_calls (log (predict self a))
     = [(audio a, transcribe_kwargs a T); (audio a, translate_kwargs T)]).
Proof.
  unfold_predict.
  destruct (bool_decide (model_name a ∉ AVAILABLE_MODELS)); [by left|].
  run. destruct (model self) as [m|]; [|by left]. run.
  destruct (temperature_setting a) as [T|] eqn:HT; [|by left]. run.
  right. exists T. split; [done|].
  destruct (transcribe m (audio a) (transcribe_kwargs a T))
    as [[segments info]|]; run; [|by left].
  destruct (outcome (format_segments (transcription a) segments)) eqn:Hfmt;
    [|left; by calls].
  run.
  destruct (translate a); run.
  - destruct (transcribe m (audio a) (translate_kwargs T))
      as [[segments2 info2]|]; run; [|right; by calls].
    right.
    destruct (outcome (format_segments (translation a) segments2)); run;
      [|by calls].
    destruct (word_timestamps a); run; [|by calls].
    destruct (word_timestamps_loop segments []); by calls.
  - left. destruct (word_timestamps a); run; [|by calls].
    destruct (word_timestamps_loop segments []); by calls.
Qed.

Lemma response_lookups (a : PredictArgs) (segments : list Segment.t)
    (info : TranscriptionInfo) (tout : string) (trout : pyvalue) :
  let r := response cuda_is_available a segments info tout trout in
  r !! "segments" = Some (PyList (serialize_segments segments)) /\
  r !! "detected_language" = Some (PyStr (info_language info)) /\
  r !! "transcription" = Some (PyStr tout) /\
  r !! "translation" = Some trout /\
  r !! "device" = Some (PyStr (if cuda_is_available then "cuda" else "cpu")) /\
  r !! "model" = Some (PyStr (model_name a)) /\
  r !! "word_timestamps" = None.
Proof. split_and!; reflexivity. Qed.

Lemma serialize_segments_entries (segments : list Segment.t) :
  Forall2 serialized_as segments (serialize_segments segments).
Proof.
  induction segments as [|segment rest IH]; constructor; [|done].
  eexists. split; [reflexivity|]. split_and!; reflexivity.
Qed.

Lemma temperature_setting_Ok (a : PredictArgs) (T : pyvalue) :
  temperature_setting a = Ok T ->
  if is_none (temperature_increment_on_fallback a)
  then T = PyList [temperature a]
  else exists ladder,
         np_arange (temperature a) (PyFloat (1 + 0x1.0c6f7a0b5ed8dp-20)%float)
           (temperature_increment_on_fallback a) = Returned ladder /\
         T = PyTuple ladder.
Proof.
  unfold_temperature_setting.
  destruct (is_none _); cbn [negb]; [by intros [= <-]|].
  destruct (np_arange _ _ _) as [ladder|]; [|discriminate].
  intros [= <-]. by exists ladder.
Qed.

Lemma word_entry_fields (word : Word.t) : word_entry_of word (word_entry word).
Proof.
  unfold word_entry_of, word_entry. eexists. split; [reflexivity|].
  split_and!; [done | done | done |].
  rewrite dom_list_to_map_L. cbn. set_solver.
Qed.

(** ** The claims on predict *)

(** C6: for every model name other than "large-v2", predict raises the
    invalid-model error, whose message lists the allowed set, whatever the
    other arguments and whether or not a model is loaded; nothing is logged
    before it, so no transcribe call is made. *)
Theorem C6_invalid_model_name (self : Predictor) (a : PredictArgs) :
  model_name a <> "large-v2" ->
  predict self a
  = MkM [] (Raise (ValueError
                     ("Invalid model name: " +:+ model_name a
                      +:+ ". Available models are: {'large-v2'}"))) /\
  transcribe_calls (log (predict self a)) = [].
Proof.
  intros Hname.
  assert (predict self a
          = MkM [] (Raise (ValueError
                             ("Invalid model name: " +:+ model_name a
                              +:+ ". Available models are: {'large-v2'}"))))
    as Heq; [|by rewrite Heq].
  unfold_predict.
  rewrite bool_decide_true by by rewrite in_available_models.
  by rewrite str_available_models.
Qed.

(** C7: with a supported model name, predict on a predictor whose model
    reference is unset raises the model-not-loaded error: on a fresh
    predictor, and after a setup that failed, which re-raises and leaves the
    reference as it was. After a successful setup the reference is set and
    predict passes the check: it logs the cached model and cannot raise the
    model-not-loaded error. *)
Theorem C7_model_not_loaded (self : Predictor) (a : PredictArgs) :
  model_name a = "large-v2" ->
  (model self = None -> predict self a = MkM [] (Raise not_loaded)) /\
  predict Predictor_init a = MkM [] (Raise not_loaded) /\
  (forall e,
     outcome (setup self).2 = Raise e ->
     (exists msg, e = RuntimeError msg) /\
     (setup self).1 = self /\
     (model self = None ->
      predict (setup self).1 a = MkM [] (Raise not_loaded))) /\
  (outcome (setup self).2 = Ok tt ->
   (exists m, model (setup self).1 = Some m) /\
   (forall e,
      outcome (predict (setup self).1 a) = Raise e ->
      other_than_not_loaded e) /\
   outcome (predict (setup self).1 a) <> Raise not_loaded /\
   exists rest,
     log (predict (setup self).1 a)
     = EvPrint "Using cached model: large-v2" :: rest).
Proof.
  intros Hname.
  assert (forall p, model p = None -> predict p a = MkM [] (Raise not_loaded))
    as Hunset.
  { intros p Hp. unfold_predict.
    rewrite bool_decide_false
      by (intros Hn; apply Hn; by rewrite in_available_models).
    by rewrite Hp. }
  split_and!.
  - apply Hunset.
  - by apply Hunset.
  - intros e He. pose proof (setup_outcome self) as Hs.
    destruct (WhisperModel_new _ _ _ _) as [m|msg]; destruct Hs as [Hs1 Hs2].
    + rewrite Hs2 in He. discriminate.
    + rewrite Hs2 in He. injection He as <-. split_and!; [by eexists|done|].
      rewrite Hs1. apply Hunset.
  - intros Hok. pose proof (setup_outcome self) as Hs.
    destruct (WhisperModel_new _ _ _ _) as [m|msg]; destruct Hs as [Hs1 Hs2];
      [|rewrite Hs2 in Hok; discriminate].
    rewrite Hs1.
    destruct (predict_loaded {| model := Some m |} a m) as [Hraise [rest Hlog]];
      [done|by rewrite in_available_models|].
    split_and!.
    + by exists m.
    + apply Hraise.
    + intros Hr. by apply Hraise in Hr.
    + exists rest. by rewrite Hlog, Hname.
Qed.

(** C8: in a predict call that returns, without translation the translation
    field is None and one transcribe call was made; with translation, a
    second transcribe call was made on the same audio with task "translate"
    and the temperature of the first call (the one-element list, or the
    tuple of the fallback ladder), and the translation field is the
    segments of that call formatted with the translation format selector. *)
Theorem C8_translation_pass (self : Predictor) (a : PredictArgs)
    (r : gmap string pyvalue) :
  outcome (predict self a) = Ok r ->
  exists m T segments info,
    model self = Some m /\
    temperature_setting a = Ok T /\
    (if is_none (temperature_increment_on_fallback a)
     then T = PyList [temperature a]
     else exists ladder,
            np_arange (temperature a)
              (PyFloat (1 + 0x1.0c6f7a0b5ed8dp-20)%float)
              (temperature_increment_on_fallback a) = Returned ladder /\
            T = PyTuple ladder) /\
    transcribe m (audio a) (transcribe_kwargs a T)
    = Returned (segments, info) /\
    transcribe_kwargs a T !! "task" = Some (PyStr "transcribe") /\
    transcribe_kwargs a T !! "temperature" = Some T /\
    if translate a
    then exists translation_segments info' out,
           transcribe_calls (log (predict self a))
           = [(audio a, transcribe_kwargs a T);
              (audio a, translate_kwargs T)] /\
           translate_kwargs T !! "task" = Some (PyStr "translate") /\
           translate_kwargs T !! "temperature" = Some T /\
           transcribe m (audio a) (translate_kwargs T)
           = Returned (translation_segments, info') /\
           outcome (format_segments (translation a) translation_segments)
           = Ok out /\
           r !! "translation" = Some (PyStr out)
    else transcribe_calls (log (predict self a))
         = [(audio a, transcribe_kwargs a T)] /\
         r !! "translation" = Some PyNone.
Proof.
  intros H. apply predict_Ok_inv in H
    as (m & T & segments & info & tout & trout & trlog
        & _ & Hmodel & HT & Hrun & Hfmt & Htr & Hr & Hlog).
  exists m, T, segments, info.
  split_and!; [done|done|by apply temperature_setting_Ok|done
              |reflexivity|reflexivity|].
  assert (r !! "translation" = Some trout) as Hlookup.
  { destruct (word_timestamps a).
    - destruct Hr as (wl & _ & ->). by rewrite lookup_insert_ne.
    - by rewrite Hr. }
  rewrite Hlog. destruct (translate a).
  - destruct Htr as (segments2 & info2 & out2 & Hrun2 & Hfmt2 & -> & ->).
    exists segments2, info2, out2.
    split_and!; [by calls|reflexivity|reflexivity|done|done|done].
  - destruct Htr as [-> ->]. split; [by calls|done].
Qed.

(** C9: the mapping returned by predict holds the serialized segments (each
    a dictionary with the segment's id, start, end, text, token ids,
    temperature, average log-probability, compression ratio and no-speech
    probability), the detected language, the formatted transcription, the
    formatted translation or None, the device and the model name; it has a
    word_timestamps key exactly when word-level timestamps were requested,
    which holds the word, start, end entries of all segments in order. The
    translation is the output of the translation pass formatted with the
    translation selector, and each word entry is a dictionary with exactly
    the keys word, start and end, holding those of the word. *)
Theorem C9_response_mapping (self : Predictor) (a : PredictArgs)
    (r : gmap string pyvalue) :
  outcome (predict self a) = Ok r ->
  exists m T segments info transcription_output,
    model self = Some m /\
    temperature_setting a = Ok T /\
    transcribe m (audio a) (transcribe_kwargs a T)
    = Returned (segments, info) /\
    outcome (format_segments (transcription a) segments)
    = Ok transcription_output /\
    r !! "segments" = Some (PyList (serialize_segments segments)) /\
    Forall2 serialized_as segments (serialize_segments segments) /\
    r !! "detected_language" = Some (PyStr (info_language info)) /\
    r !! "transcription" = Some (PyStr transcription_output) /\
    (if translate a
     then exists translation_segments info2 translation_output,
            transcribe m (audio a) (translate_kwargs T)
            = Returned (translation_segments, info2) /\
            outcome (format_segments (translation a) translation_segments)
            = Ok translation_output /\
            r !! "translation" = Some (PyStr translation_output)
     else r !! "translation" = Some PyNone) /\
    r !! "device" = Some (PyStr (if cuda_is_available then "cuda" else "cpu")) /\
    r !! "model" = Some (PyStr (model_name a)) /\
    (is_Some (r !! "word_timestamps") <-> word_timestamps a = true) /\
    (word_timestamps a = true ->
     exists (wss : list (list Word.t)) (wl : list pyvalue),
       map Segment.words segments = map Some wss /\
       r !! "word_timestamps" = Some (PyList wl) /\
       Forall2 word_entry_of (concat wss) wl).
Proof.
  intros H. apply predict_Ok_inv in H
    as (m & T & segments & info & tout & trout & trlog
        & _ & Hmodel & HT & Hrun & Hfmt & Htr & Hr & _).
  exists m, T, segments, info, tout.
  destruct (response_lookups a segments info tout trout)
    as (Hseg & Hlang & Htout & Htrout & Hdev & Hname & Hnone).
  assert (forall k : string,
            k <> "word_timestamps" ->
            r !! k = response cuda_is_available a segments info tout trout !! k)
    as Hsame.
  { intros k Hk. destruct (word_timestamps a).
    - destruct Hr as (wl & _ & ->). by rewrite lookup_insert_ne.
    - by rewrite Hr. }
  split_and!; try done.
  - by rewrite Hsame.
  - apply serialize_segments_entries.
  - by rewrite Hsame.
  - by rewrite Hsame.
  - rewrite Hsame, Htrout by done. destruct (translate a).
    + destruct Htr as (segments2 & info2 & out & Hrun2 & Hfmt2 & -> & _).
      by exists segments2, info2, out.
    + by destruct Htr as [-> _].
  - by rewrite Hsame.
  - by rewrite Hsame.
  - destruct (word_timestamps a).
    + destruct Hr as (wl & _ & ->). rewrite lookup_insert_eq. split; eauto.
    + rewrite Hr, Hnone. split; [by intros [? ?]|done].
  - intros Hw. rewrite Hw in Hr. destruct Hr as (wl & Hwl & ->).
    apply word_timestamps_loop_flat in Hwl as (wss & Hmap & ->).
    exists wss, (map word_entry (concat wss)).
    rewrite lookup_insert_eq. split_and!; [done | done |].
    apply Forall2_fmap_r, Forall_Forall2_diag, Forall_forall.
    intros word _. apply word_entry_fields.
Qed.

(** C10 (amended): the suppress_tokens argument has no effect: predict gives
    the same run, log and outcome, for any two values of it. It is never
    handed to the library: every call of transcribe is either the
    transcription call, which passes the fixed list [-1], or the translation
    call, which passes no suppression list at all. *)
Theorem C10_suppress_tokens_is_ignored (self : Predictor) (a : PredictArgs)
    (v : pyvalue) :
  predict self (with_suppress_tokens v a) = predict self a /\
  Forall (fun call : string * gmap string pyvalue =>
            (call.2 !! "task" = Some (PyStr "transcribe") /\
             call.2 !! "suppress_tokens" = Some (PyList [PyInt (-1)])) \/
            (call.2 !! "task" = Some (PyStr "translate") /\
             call.2 !! "suppress_tokens" = None))
    (transcribe_calls (log (predict self a))).
Proof.
  split; [by destruct a|].
  destruct (predict_calls self a) as [-> | (T & _ & [-> | ->])];
    [constructor
    | constructor; [by left | constructor]
    | constructor; [by left | constructor; [by right | constructor]]].
Qed.

End PredictorFacts.

(** ** The claims on predict, on the sample data *)

(** The sample call returns. *)
Lemma sample_run :
  outcome (predict true sample_arange sample_predictor sample_args)
  = Ok sample_response.
Proof. vm_cast_no_check (eq_refl (Ok sample_response)). Qed.

Lemma C6_witness :
  model_name base_args <> "large-v2" /\
  predict true sample_arange sample_predictor base_args
  = MkM [] (Raise (ValueError
                     "Invalid model name: base. Available models are: {'large-v2'}")).
Proof.
  assert (model_name base_args <> "large-v2") as Hname by discriminate.
  split; [exact Hname|].
  exact (proj1 (C6_invalid_model_name true sample_arange sample_predictor
                  base_args Hname)).
Defined.

Lemma C7_witness :
  model_name sample_args = "large-v2" /\
  predict true sample_arange
    (setup true true failing_loader Predictor_init).1 sample_args
  = MkM [] (Raise not_loaded).
Proof.
  split; [reflexivity|].
  destruct (C7_model_not_loaded true true failing_loader sample_arange
              Predictor_init sample_args eq_refl) as (_ & _ & Hfailed & _).
  eapply Hfailed; reflexivity.
Defined.

Lemma C8_witness :
  outcome (predict true sample_arange sample_predictor sample_args)
  = Ok sample_response /\
  exists out, sample_response !! "translation" = Some (PyStr out).
Proof.
  pose proof sample_run as Hrun. split; [exact Hrun|].
  destruct (C8_translation_pass true sample_arange sample_predictor
              sample_args sample_response Hrun)
    as (m & T & segments & info & _ & _ & _ & _ & _ & _ & Htranslate).
  change (translate sample_args) with true in Htranslate.
  destruct Htranslate as (_ & _ & out & _ & _ & _ & _ & _ & Hout).
  by exists out.
Defined.

Lemma C9_witness :
  outcome (predict true sample_arange sample_predictor sample_args)
  = Ok sample_response /\
  is_Some (sample_response !! "word_timestamps").
Proof.
  pose proof sample_run as Hrun. split; [exact Hrun|].
  destruct (C9_response_mapping true sample_arange sample_predictor
              sample_args sample_response Hrun)
    as (m & T & segments & info & out & Hrest).
  by apply Hrest.
Defined.

(** C10, as stated, fails: transcribe is not always invoked with the
    suppression list [-1]. The sample call asks for a translation, and its
    translation pass is given no suppress_tokens argument. *)
Lemma C10_translation_call_omits_suppress_tokens :
  ~ Forall (fun call : string * gmap string pyvalue =>
              call.2 !! "suppress_tokens" = Some (PyList [PyInt (-1)]))
      (transcribe_calls
         (log (predict true sample_arange sample_predictor sample_args))).
Proof.
  intros H.
  destruct (predict_Ok_inv true sample_arange sample_predictor sample_args
              sample_response sample_run)
    as (m & T & segments & info & tout & trout & trlog
        & _ & _ & _ & _ & _ & Htr & _ & Hlog).
  change (translate sample_args) with true in Htr.
  destruct Htr as (segments2 & info2 & out2 & _ & _ & _ & ->).
  rewrite Hlog in H. cbn [transcribe_calls] in H.
  apply Forall_cons in H as [_ H].
  rewrite transcribe_calls_app, format_segments_no_calls in H.
  cbn [app transcribe_calls] in H.
  apply Forall_cons in H as [H _]. cbn [snd] in H.
  discriminate H.
Qed.

(** ** Further properties of the writers *)

Lemma returns_Ok {A} (a : A) : returns (Ok a).
Proof. by exists a. Qed.

Lemma not_returns_Raise {A} (e : exn) : ~ returns (@Raise A e).
Proof. by intros [a Ha]. Qed.

Lemma write_vtt_loop_app (l1 l2 : list Segment.t) :
  forall result : string,
    write_vtt_loop (l1 ++ l2) result
    = result' ← write_vtt_loop l1 result; write_vtt_loop l2 result'.
Proof.
  induction l1 as [|segment l1 IH]; intros result; [done|].
  cbn [app write_vtt_loop].
  destruct (format_timestamp (Segment.start segment) true "."); [|done].
  destruct (format_timestamp (Segment.end_ segment) true "."); [|done].
  cbn [mbind res_bind]. apply IH.
Qed.

Lemma write_vtt_loop_from (transcript : list Segment.t) (result : string) :
  write_vtt_loop transcript result
  = (fun out => result +:+ out) <$> write_vtt transcript.
Proof.
  unfold write_vtt. rewrite !write_vtt_loop_blocks.
  by destruct (mapM _ _).
Qed.

(** X1: the vtt document of a concatenation is the concatenation of the
    vtt documents; it raises where the first one that raises does. *)
Theorem X1_write_vtt_app (l1 l2 : list Segment.t) :
  write_vtt (l1 ++ l2)
  = out1 ← write_vtt l1; out2 ← write_vtt l2; Ok (out1 +:+ out2).
Proof.
  unfold write_vtt at 1. rewrite write_vtt_loop_app.
  fold (write_vtt l1). destruct (write_vtt l1) as [out1|e]; [|done].
  cbn [mbind res_bind]. rewrite write_vtt_loop_from.
  by destruct (write_vtt l2).
Qed.

Lemma write_srt_loop_app (l1 l2 : list Segment.t) :
  forall (i : Z) (result : string),
    write_srt_loop i (l1 ++ l2) result
    = result' ← write_srt_loop i l1 result;
      write_srt_loop (i + Z.of_nat (length l1)) l2 result'.
Proof.
  induction l1 as [|segment l1 IH]; intros i result.
  - cbn. by rewrite Z.add_0_r.
  - cbn [app write_srt_loop length].
    destruct (format_timestamp (Segment.start segment) true ","); [|done].
    destruct (format_timestamp (Segment.end_ segment) true ","); [|done].
    cbn [mbind res_bind]. rewrite IH. do 2 f_equal. lia.
Qed.

(** X2: appending a segment to a transcript of n segments appends to its srt
    document the block numbered n + 1. *)
Theorem X2_write_srt_snoc (transcript : list Segment.t) (segment : Segment.t) :
  write_srt (transcript ++ [segment])
  = out ← write_srt transcript;
    block ← srt_block cue_text (Z.of_nat (length transcript) + 1, segment);
    Ok (out +:+ block).
Proof.
  unfold write_srt at 1. rewrite write_srt_loop_app.
  fold (write_srt transcript).
  destruct (write_srt transcript) as [out|e]; [|done].
  cbn [mbind res_bind]. rewrite write_srt_loop_blocks.
  cbn [enumerate]. rewrite mapM_res_cons.
  replace (1 + Z.of_nat (length transcript))
    with (Z.of_nat (length transcript) + 1) by lia.
  by destruct (srt_block cue_text _) as [block|e].
Qed.

Lemma write_vtt_loop_returns (transcript : list Segment.t) :
  forall result : string,
    returns (write_vtt_loop transcript result) <->
    Forall (fun segment =>
              returns (format_timestamp (Segment.start segment) true ".") /\
              returns (format_timestamp (Segment.end_ segment) true "."))
      transcript.
Proof.
  induction transcript as [|segment rest IH]; intros result.
  - split; [by constructor | intros _; apply returns_Ok].
  - rewrite Forall_cons. cbn [write_vtt_loop].
    destruct (format_timestamp (Segment.start segment) true ".") as [ts|e];
      [|split; [by intros ?%not_returns_Raise
               | by intros [[?%not_returns_Raise _] _]]].
    destruct (format_timestamp (Segment.end_ segment) true ".") as [te|e];
      [|split; [by intros ?%not_returns_Raise
               | by intros [[_ ?%not_returns_Raise] _]]].
    cbn [mbind res_bind]. rewrite IH.
    split; [intros H; split_and!; [apply returns_Ok..|done] | by intros [_ ?]].
Qed.

Lemma write_srt_loop_returns (transcript : list Segment.t) :
  forall (i : Z) (result : string),
    returns (write_srt_loop i transcript result) <->
    Forall (fun segment =>
              returns (format_timestamp (Segment.start segment) true ",") /\
              returns (format_timestamp (Segment.end_ segment) true ","))
      transcript.
Proof.
  induction transcript as [|segment rest IH]; intros i result.
  - split; [by constructor | intros _; apply returns_Ok].
  - rewrite Forall_cons. cbn [write_srt_loop].
    destruct (format_timestamp (Segment.start segment) true ",") as [ts|e];
      [|split; [by intros ?%not_returns_Raise
               | by intros [[?%not_returns_Raise _] _]]].
    destruct (format_timestamp (Segment.end_ segment) true ",") as [te|e];
      [|split; [by intros ?%not_returns_Raise
               | by intros [[_ ?%not_returns_Raise] _]]].
    cbn [mbind res_bind]. rewrite IH.
    split; [intros H; split_and!; [apply returns_Ok..|done] | by intros [_ ?]].
Qed.

(** X3: each subtitle writer returns exactly when both offsets of every
    segment format; one segment whose offset does not format makes the
    whole document fail. *)
Theorem X3_writers_return_iff_offsets_format (transcript : list Segment.t) :
  (returns (write_srt transcript) <->
   Forall (fun segment =>
             returns (format_timestamp (Segment.start segment) true ",") /\
             returns (format_timestamp (Segment.end_ segment) true ","))
     transcript) /\
  (returns (write_vtt transcript) <->
   Forall (fun segment =>
             returns (format_timestamp (Segment.start segment) true ".") /\
             returns (format_timestamp (Segment.end_ segment) true "."))
     transcript).
Proof.
  split; [apply write_srt_loop_returns | apply write_vtt_loop_returns].
Qed.


(** ** The text line of a cue is trimmed *)

Lemma lstrip_starts_clean (s : string) : starts_clean (Py.lstrip s).
Proof.
  induction s as [|c s IH]; [done|]. cbn [Py.lstrip].
  by destruct (Py.isspace c) eqn:Hc.
Qed.

Lemma lstrip_of_clean (s : string) : starts_clean s -> Py.lstrip s = s.
Proof. destruct s as [|c s]; [done|]. cbn. by intros ->. Qed.

Lemma rstrip_starts_clean (s : string) :
  starts_clean s -> starts_clean (Py.rstrip s).
Proof.
  destruct s as [|c s]; [done|]. intros Hc.
  by rewrite (rstrip_cons c s Hc).
Qed.

Lemma rewrite_arrows_starts_clean (s : string) :
  starts_clean s -> starts_clean (rewrite_arrows s).
Proof.
  destruct s as [|c s]; [done|]. intros Hc.
  destruct (Py.startswith "-->" (String c s)) eqn:Hm.
  - apply startswith_split in Hm as [t ->]. by rewrite rewrite_arrows_match.
  - by rewrite (rewrite_arrows_other c s Hm).
Qed.

Lemma rstrip_cons_fixed (c : ascii) (s : string) :
  s <> "" -> Py.rstrip s = s -> Py.rstrip (String c s) = String c s.
Proof.
  intros Hs Hr. cbn [Py.rstrip]. rewrite Hr. by destruct s.
Qed.

Lemma rstrip_idemp (s : string) : Py.rstrip (Py.rstrip s) = Py.rstrip s.
Proof.
  induction s as [|c s IH]; [done|]. cbn [Py.rstrip].
  destruct (Py.rstrip s) as [|d r] eqn:Hr.
  - destruct (Py.isspace c) eqn:Hc; [done|]. cbn. by rewrite Hc.
  - by apply rstrip_cons_fixed.
Qed.

Lemma rewrite_arrows_nonempty (s : string) :
  s <> "" -> rewrite_arrows s <> "".
Proof.
  destruct s as [|c s]; [done|]. intros _.
  destruct (Py.startswith "-->" (String c s)) eqn:Hm.
  - apply startswith_split in Hm as [t ->]. by rewrite rewrite_arrows_match.
  - by rewrite (rewrite_arrows_other c s Hm).
Qed.

Lemma rstrip_fixed_tail (c : ascii) (s : string) :
  Py.rstrip (String c s) = String c s ->
  (s = "" /\ Py.isspace c = false) \/ (s <> "" /\ Py.rstrip s = s).
Proof.
  cbn [Py.rstrip]. destruct (Py.rstrip s) as [|d r] eqn:Hr.
  - destruct (Py.isspace c); [done|]. intros [= <-]. by left.
  - intros [= <-]. by right.
Qed.

Lemma rstrip_rewrite_arrows_aux (n : nat) :
  forall s : string,
    (String.length s <= n)%nat ->
    Py.rstrip s = s ->
    Py.rstrip (rewrite_arrows s) = rewrite_arrows s.
Proof.
  induction n as [|n IH]; intros s Hlen Hs.
  - by destruct s; [|cbn in Hlen; lia].
  - destruct s as [|c s]; [done|]. cbn [String.length] in Hlen.
    destruct (Py.startswith "-->" (String c s)) eqn:Hm.
    + apply startswith_split in Hm as [t Ht].
      change ("-->" +:+ t) with (String "-" (String "-" (String ">" t))) in Ht.
      injection Ht as -> ->.
      change (String "-" (String "-" (String ">" t))) with ("-->" +:+ t) in *.
      rewrite rewrite_arrows_match.
      change ("-->" +:+ t) with (String "-" (String "-" (String ">" t))) in Hs.
      rewrite !rstrip_cons in Hs by reflexivity. injection Hs as Hs.
      change ("->" +:+ rewrite_arrows t)
        with (String "-" (String ">" (rewrite_arrows t))).
      rewrite !rstrip_cons by reflexivity. do 2 f_equal.
      apply IH; [cbn [String.length] in Hlen; lia | done].
    + rewrite (rewrite_arrows_other c s Hm).
      destruct (rstrip_fixed_tail c s Hs) as [[-> Hc] | [Hne Hr]].
      * cbn. by rewrite Hc.
      * apply rstrip_cons_fixed; [by apply rewrite_arrows_nonempty|].
        apply IH; [lia | done].
Qed.

(** X4: the text line of a cue neither begins nor ends with whitespace:
    stripping it again changes nothing, although arrows were rewritten
    after the stripping. *)
Theorem X4_cue_text_is_stripped (segment : Segment.t) :
  Py.strip (cue_text segment) = cue_text segment.
Proof.
  unfold cue_text, Py.strip at 1.
  rewrite lstrip_of_clean
    by (apply rewrite_arrows_starts_clean, rstrip_starts_clean,
          lstrip_starts_clean).
  apply (rstrip_rewrite_arrows_aux _ _ (le_n _)).
  unfold Py.strip. apply rstrip_idemp.
Qed.

(** ** Further properties of format_segments *)

Lemma join_app (sep : string) (l1 l2 : list string) :
  l1 <> [] -> l2 <> [] ->
  Py.join sep (l1 ++ l2) = Py.join sep l1 +:+ sep +:+ Py.join sep l2.
Proof.
  intros H1 H2. induction l1 as [|x [|y l1] IH]; [done| |].
  - cbn [app]. by destruct l2.
  - change (Py.join sep ((x :: y :: l1) ++ l2))
      with (x +:+ sep +:+ Py.join sep ((y :: l1) ++ l2)).
    rewrite IH by done.
    change (Py.join sep (x :: y :: l1))
      with (x +:+ sep +:+ Py.join sep (y :: l1)).
    by rewrite !append_assoc.
Qed.

Lemma format_segments_text (format_type : string)
    (segments : list Segment.t) :
  ~ subtitle_format format_type ->
  outcome (format_segments format_type segments)
  = Ok (Py.join (text_separator format_type)
          (map (fun segment => Py.lstrip (Segment.text segment)) segments)).
Proof.
  intros Hnot. unfold format_segments, text_separator.
  destruct (String.eqb_spec format_type "plain_text") as [->|_]; [done|].
  destruct (String.eqb_spec format_type "formatted_text") as [->|_]; [done|].
  destruct (String.eqb_spec format_type "srt") as [->|_];
    [by destruct Hnot; left|].
  destruct (String.eqb_spec format_type "vtt") as [->|_];
    [by destruct Hnot; right|].
  done.
Qed.

(** X5: for every selector other than srt and vtt, format_segments returns,
    whatever the segments (their offsets are not read): the left-trimmed
    texts joined by a line feed for formatted_text and by a space for
    plain_text and for every unknown selector. *)
Theorem X5_text_formats_never_raise (format_type : string)
    (segments : list Segment.t) :
  format_type <> "srt" -> format_type <> "vtt" ->
  outcome (format_segments format_type segments)
  = Ok (Py.join (if String.eqb format_type "formatted_text"
                 then Py.LF else " ")
          (map (fun segment => Py.lstrip (Segment.text segment)) segments)).
Proof.
  intros Hsrt Hvtt. apply format_segments_text. by intros [? | ?].
Qed.

Lemma X5_witness :
  "plain_text" <> "srt" /\ "plain_text" <> "vtt" /\
  outcome (format_segments "plain_text" [hello_segment; early_segment])
  = Ok "Hello world  too early " /\
  outcome (format_segments "srt" [hello_segment; early_segment])
  = Raise (AssertionError "non-negative timestamp expected").
Proof.
  split_and!; [discriminate | discriminate | | vm_compute; reflexivity].
  exact (X5_text_formats_never_raise "plain_text"
           [hello_segment; early_segment]
           ltac:(discriminate) ltac:(discriminate)).
Defined.

(** X6: format_segments prints (its warning) exactly when the selector is
    none of plain_text, formatted_text, srt and vtt. *)
Theorem X6_warning_iff_unknown_format (format_type : string)
    (segments : list Segment.t) :
  log (format_segments format_type segments) = [] <->
  format_type ∈ known_formats.
Proof.
  unfold format_segments, known_formats.
  rewrite !elem_of_cons, elem_of_nil.
  destruct (String.eqb_spec format_type "plain_text") as [->|?];
    [split; [by left | done]|].
  destruct (String.eqb_spec format_type "formatted_text") as [->|?];
    [split; [by right; left | done]|].
  destruct (String.eqb_spec format_type "srt") as [->|?];
    [split; [by right; right; left | done]|].
  destruct (String.eqb_spec format_type "vtt") as [->|?];
    [split; [by right; right; right; left | done]|].
  split; [done | by intros [?|[?|[?|[?|[]]]]]].
Qed.

(** X7: for the text formats the output of a concatenation of two non-empty
    segment lists is the two outputs with the separator between them. *)
Theorem X7_text_formats_app (format_type : string)
    (l1 l2 : list Segment.t) :
  format_type <> "srt" -> format_type <> "vtt" ->
  l1 <> [] -> l2 <> [] ->
  exists out1 out2 : string,
    outcome (format_segments format_type l1) = Ok out1 /\
    outcome (format_segments format_type l2) = Ok out2 /\
    outcome (format_segments format_type (l1 ++ l2))
    = Ok (out1
          +:+ (if String.eqb format_type "formatted_text"
               then Py.LF else " ")
          +:+ out2).
Proof.
  intros Hsrt Hvtt H1 H2.
  assert (~ subtitle_format format_type) as Hnot by by intros [? | ?].
  eexists _, _. rewrite !format_segments_text by done.
  split_and!; [reflexivity..|].
  rewrite map_app, join_app; [done | by destruct l1 | by destruct l2].
Qed.

Lemma X7_witness :
  outcome (format_segments "formatted_text" ([hello_segment] ++ [arrow_segment]))
  = Ok ("Hello world " +:+ Py.LF +:+ "a --> b ").
Proof.
  destruct (X7_text_formats_app "formatted_text" [hello_segment]
              [arrow_segment]) as (out1 & out2 & H1 & H2 & H);
    [discriminate..|].
  vm_compute in H1, H2. injection H1 as <-. injection H2 as <-. exact H.
Defined.


(** ** Further properties of serialize_segments *)

Lemma map_PyInt_inj (l1 l2 : list Z) :
  map PyInt l1 = map PyInt l2 -> l1 = l2.
Proof.
  revert l2. induction l1 as [|x l1 IH]; intros [|y l2]; try done.
  cbn. intros [= -> H]. f_equal. by apply IH.
Qed.

Lemma serialize_segment_inj (s1 s2 : Segment.t) :
  serialize_segment s1 = serialize_segment s2 <-> same_but_words s1 s2.
Proof.
  split.
  - intros H.
    pose proof (f_equal (dict_get "id") H) as Hid.
    pose proof (f_equal (dict_get "seek") H) as Hseek.
    pose proof (f_equal (dict_get "start") H) as Hstart.
    pose proof (f_equal (dict_get "end") H) as Hend.
    pose proof (f_equal (dict_get "text") H) as Htext.
    pose proof (f_equal (dict_get "tokens") H) as Htokens.
    pose proof (f_equal (dict_get "temperature") H) as Htemp.
    pose proof (f_equal (dict_get "avg_logprob") H) as Havg.
    pose proof (f_equal (dict_get "compression_ratio") H) as Hratio.
    pose proof (f_equal (dict_get "no_speech_prob") H) as Hprob.
    clear H.
    change (Some (PyInt (Segment.id s1)) = Some (PyInt (Segment.id s2)))
      in Hid.
    change (Some (PyInt (Segment.seek s1)) = Some (PyInt (Segment.seek s2)))
      in Hseek.
    change (Some (PyFloat (Segment.start s1))
            = Some (PyFloat (Segment.start s2))) in Hstart.
    change (Some (PyFloat (Segment.end_ s1))
            = Some (PyFloat (Segment.end_ s2))) in Hend.
    change (Some (PyStr (Segment.text s1)) = Some (PyStr (Segment.text s2)))
      in Htext.
    change (Some (PyList (map PyInt (Segment.tokens s1)))
            = Some (PyList (map PyInt (Segment.tokens s2)))) in Htokens.
    change (Some (PyFloat (Segment.temperature s1))
            = Some (PyFloat (Segment.temperature s2))) in Htemp.
    change (Some (PyFloat (Segment.avg_logprob s1))
            = Some (PyFloat (Segment.avg_logprob s2))) in Havg.
    change (Some (PyFloat (Segment.compression_ratio s1))
            = Some (PyFloat (Segment.compression_ratio s2))) in Hratio.
    change (Some (PyFloat (Segment.no_speech_prob s1))
            = Some (PyFloat (Segment.no_speech_prob s2))) in Hprob.
    injection Hid as Hid. injection Hseek as Hseek.
    injection Hstart as Hstart. injection Hend as Hend.
    injection Htext as Htext. injection Htokens as Htokens.
    injection Htemp as Htemp. injection Havg as Havg.
    injection Hratio as Hratio. injection Hprob as Hprob.
    apply map_PyInt_inj in Htokens. by split_and!.
  - destruct s1, s2. unfold same_but_words. cbn.
    intros (-> & -> & -> & -> & -> & -> & -> & -> & -> & ->). reflexivity.
Qed.

Lemma cons_eq_inv {A} (x y : A) (l k : list A) :
  x :: l = y :: k -> x = y /\ l = k.
Proof. by intros [= -> ->]. Qed.

Lemma serialize_segment_keys (segment : Segment.t) :
  exists d, serialize_segment segment = PyDict d /\ dom d = segment_keys.
Proof.
  eexists. split; [reflexivity|].
  rewrite dom_list_to_map_L. unfold segment_keys. cbn. set_solver.
Qed.

(** X8: serialize_segments keeps everything of a segment but its words:
    two transcripts have the same serialization exactly when they have the
    same length and their segments agree, in order, on every field other
    than words. Each serialized segment has the ten keys id, seek, start,
    end, text, tokens, temperature, avg_logprob, compression_ratio and
    no_speech_prob, and no other. *)
Theorem X8_serialize_segments_drops_only_words (l1 l2 : list Segment.t) :
  (serialize_segments l1 = serialize_segments l2 <->
   Forall2 same_but_words l1 l2) /\
  Forall (fun v => exists d, v = PyDict d /\ dom d = segment_keys)
    (serialize_segments l1).
Proof.
  split.
  - unfold serialize_segments. revert l2.
    induction l1 as [|s1 l1 IH]; intros [|s2 l2]; cbn [map].
    + split; [constructor | done].
    + split; [done | by intros ?%Forall2_nil_cons_inv].
    + split; [done | by intros ?%Forall2_cons_nil_inv].
    + rewrite Forall2_cons. split.
      * intros [H1 H2]%cons_eq_inv. split.
        -- by apply serialize_segment_inj.
        -- by apply IH.
      * intros [H1 H2]. f_equal.
        -- by apply serialize_segment_inj.
        -- by apply IH.
  - apply Forall_forall. intros v Hv. unfold serialize_segments in Hv.
    apply list_elem_of_In, in_map_iff in Hv as (segment & <- & _).
    apply serialize_segment_keys.
Qed.


(** ** Further properties of setup and predict *)

Lemma round_timestamp_error (x : float) (e : exn) :
  Py.round x = Raise e -> timestamp_error e.
Proof.
  unfold Py.round, timestamp_error.
  destruct (Prim2SF x); intros [= <-]; auto.
Qed.

Lemma format_timestamp_error (x : float) (hours : bool) (marker : string)
    (e : exn) :
  format_timestamp x hours marker = Raise e -> timestamp_error e.
Proof.
  unfold format_timestamp.
  destruct (negb _); [intros [= <-]; by left|].
  destruct (Py.round _) as [ms|e'] eqn:Hr; [discriminate|].
  intros [= <-]. by eapply round_timestamp_error.
Qed.

Lemma write_srt_loop_error (transcript : list Segment.t) :
  forall (i : Z) (result : string) (e : exn),
    write_srt_loop i transcript result = Raise e -> timestamp_error e.
Proof.
  induction transcript as [|segment rest IH]; intros i result e; [discriminate|].
  cbn [write_srt_loop].
  destruct (format_timestamp (Segment.start segment) true ",") eqn:H1;
    [|intros [= <-]; by eapply format_timestamp_error].
  destruct (format_timestamp (Segment.end_ segment) true ",") eqn:H2;
    [|intros [= <-]; by eapply format_timestamp_error].
  apply IH.
Qed.

Lemma write_vtt_loop_error (transcript : list Segment.t) :
  forall (result : string) (e : exn),
    write_vtt_loop transcript result = Raise e -> timestamp_error e.
Proof.
  induction transcript as [|segment rest IH]; intros result e; [discriminate|].
  cbn [write_vtt_loop].
  destruct (format_timestamp (Segment.start segment) true ".") eqn:H1;
    [|intros [= <-]; by eapply format_timestamp_error].
  destruct (format_timestamp (Segment.end_ segment) true ".") eqn:H2;
    [|intros [= <-]; by eapply format_timestamp_error].
  apply IH.
Qed.

Lemma format_segments_error (format_type : string)
    (segments : list Segment.t) (e : exn) :
  outcome (format_segments format_type segments) = Raise e ->
  subtitle_format format_type /\ timestamp_error e.
Proof.
  unfold format_segments, subtitle_format.
  destruct (String.eqb_spec format_type "plain_text"); [done|].
  destruct (String.eqb_spec format_type "formatted_text"); [done|].
  destruct (String.eqb_spec format_type "srt") as [->|?].
  { intros H. split; [by left|]. exact (write_srt_loop_error _ _ _ _ H). }
  destruct (String.eqb_spec format_type "vtt") as [->|?].
  { intros H. split; [by right|]. exact (write_vtt_loop_error _ _ _ H). }
  done.
Qed.

Lemma word_timestamps_loop_error (segments : list Segment.t) :
  forall (acc : list pyvalue) (e : exn),
    word_timestamps_loop segments acc = Raise e ->
    e = TypeError "'NoneType' object is not iterable" /\
    Exists (fun segment => Segment.words segment = None) segments.
Proof.
  induction segments as [|segment rest IH]; intros acc e; [discriminate|].
  cbn [word_timestamps_loop].
  destruct (Segment.words segment) eqn:Hw.
  - intros H. apply IH in H as [-> H]. split; [done|]. by right.
  - intros [= <-]. split; [done|]. by left.
Qed.

Lemma temperature_setting_library
    (np_arange : pyvalue -> pyvalue -> pyvalue -> lib_result (list pyvalue))
    (a : PredictArgs) (e : exn) :
  temperature_setting np_arange a = Raise e -> exists msg, e = LibraryError msg.
Proof.
  unfold temperature_setting. destruct (negb _); [|discriminate].
  destruct (np_arange _ _ _) as [|msg]; [discriminate|].
  intros [= <-]. by exists msg.
Qed.

Section PredictorProperties.

Variable cuda_is_available : bool.
Variable TORCH_AVAILABLE : bool.
Variable WhisperModel_new :
  string -> string -> string -> Z -> lib_result WhisperModel.
Variable np_arange : pyvalue -> pyvalue -> pyvalue -> lib_result (list pyvalue).

Local Abbreviation predict := (predict cuda_is_available np_arange).
Local Abbreviation temperature_setting := (temperature_setting np_arange).
Local Abbreviation setup :=
  (setup cuda_is_available TORCH_AVAILABLE WhisperModel_new).

Lemma response_dom (a : PredictArgs) (segments : list Segment.t)
    (info : TranscriptionInfo) (tout : string) (trout : pyvalue) :
  dom (response cuda_is_available a segments info tout trout) = response_keys.
Proof.
  unfold response, response_keys. rewrite dom_list_to_map_L. cbn. set_solver.
Qed.

(** X9: the mapping a returning predict call gives has exactly the keys
    segments, detected_language, transcription, translation, device and
    model, and word_timestamps when the word list was requested; the
    translation key is there also when no translation was asked for. *)
Theorem X9_response_keys (self : Predictor) (a : PredictArgs)
    (r : gmap string pyvalue) :
  outcome (predict self a) = Ok r ->
  dom r
  = response_keys
    ∪ (if word_timestamps a then {[ "word_timestamps" ]} else ∅).
Proof.
  intros H. apply predict_Ok_inv in H
    as (m & T & segments & info & tout & trout & trlog
        & _ & _ & _ & _ & _ & _ & Hr & _).
  destruct (word_timestamps a).
  - destruct Hr as (wl & _ & ->). rewrite dom_insert_L, response_dom.
    set_solver.
  - rewrite Hr, response_dom. set_solver.
Qed.

Lemma predict_calls_by_pass (self : Predictor) (a : PredictArgs) :
  transcribe_calls (log (predict self a)) = [] \/
  exists T,
    temperature_setting a = Ok T /\
    (transcribe_calls (log (predict self a))
     = [(audio a, transcribe_kwargs a T)] \/
     (translate a = true /\
      transcribe_calls (log (predict self a))
      = [(audio a, transcribe_kwargs a T); (audio a, translate_kwargs T)])).
Proof.
  unfold_predict.
  destruct (bool_decide (model_name a ∉ AVAILABLE_MODELS)); [by left|].
  run. destruct (model self) as [m|]; [|by left]. run.
  destruct (temperature_setting a) as [T|] eqn:HT; [|by left]. run.
  right. exists T. split; [done|].
  destruct (transcribe m (audio a) (transcribe_kwargs a T))
    as [[segments info]|]; run; [|by left].
  destruct (outcome (format_segments (transcription a) segments)) eqn:Hfmt;
    [|left; by calls].
  run.
  destruct (translate a); run.
  - destruct (transcribe m (audio a) (translate_kwargs T))
      as [[segments2 info2]|]; run; [|right; split; [done|by calls]].
    right. split; [done|].
    destruct (outcome (format_segments (translation a) segments2)); run;
      [|by calls].
    destruct (word_timestamps a); run; [|by calls].
    destruct (word_timestamps_loop segments []); by calls.
  - left. destruct (word_timestamps a); run; [|by calls].
    destruct (word_timestamps_loop segments []); by calls.
Qed.

Lemma translate_kwargs_dom (T : pyvalue) :
  dom (translate_kwargs T) = {[ "task"; "temperature" ]}.
Proof.
  unfold translate_kwargs. rewrite dom_list_to_map_L. cbn. set_solver.
Qed.

(** X10: whatever happens, predict calls transcribe at most twice, always on
    the audio of the call, and at most once when no translation is asked
    for. A call with task "translate" is given the task and the temperature
    and nothing else: the language hint, the beam and sampling settings, the
    prompt, the thresholds, the VAD options and the word-timestamp flag do
    not reach the translation pass. *)
Theorem X10_translation_call_arguments (self : Predictor) (a : PredictArgs) :
  (length (transcribe_calls (log (predict self a))) <= 2)%nat /\
  (translate a = false ->
   (length (transcribe_calls (log (predict self a))) <= 1)%nat) /\
  Forall (fun call : string * gmap string pyvalue =>
            call.1 = audio a /\
            (call.2 !! "task" = Some (PyStr "translate") ->
             dom call.2 = {[ "task"; "temperature" ]}))
    (transcribe_calls (log (predict self a))).
Proof.
  destruct (predict_calls_by_pass self a)
    as [-> | (T & _ & [-> | [Htr ->]])].
  - split_and!; [cbn; lia | cbn; lia | constructor].
  - split_and!; [cbn; lia | cbn; lia |].
    constructor; [|constructor]. cbn [fst snd].
    split; [done|]. intros Htask. discriminate Htask.
  - split_and!; [cbn; lia | by rewrite Htr |].
    constructor; [|constructor; [|constructor]]; cbn [fst snd].
    + split; [done|]. intros Htask. discriminate Htask.
    + split; [done|]. intros _. apply translate_kwargs_dom.
Qed.

(** X11: the exceptions of predict, by origin. A predict call that raises
    raises the invalid-model error (the name is not large-v2), or the
    model-not-loaded error (no model is set), or an exception of a library
    call, or an offset-formatting error (only when the transcription
    selector, or with translation the translation selector, is srt or vtt),
    or the TypeError of iterating the words of a segment that has none (only
    when the word list was requested). *)
Theorem X11_predict_exceptions (self : Predictor) (a : PredictArgs)
    (e : exn) :
  outcome (predict self a) = Raise e ->
  (model_name a <> "large-v2" /\
   e = ValueError ("Invalid model name: " +:+ model_name a
                   +:+ ". Available models are: {'large-v2'}")) \/
  (model self = None /\ e = not_loaded) \/
  (exists msg, e = LibraryError msg) \/
  (timestamp_error e /\
   (subtitle_format (transcription a) \/
    (translate a = true /\ subtitle_format (translation a)))) \/
  (word_timestamps a = true /\
   e = TypeError "'NoneType' object is not iterable").
Proof.
  unfold_predict.
  destruct (bool_decide (model_name a ∉ AVAILABLE_MODELS)) eqn:Hname.
  { apply bool_decide_eq_true in Hname. rewrite in_available_models in Hname.
    rewrite str_available_models. intros [= <-]. by left. }
  run. destruct (model self) as [m|]; [|intros [= <-]; by right; left]. run.
  destruct (temperature_setting a) as [T|e'] eqn:HT;
    [|intros [= <-]; right; right; left;
      by apply temperature_setting_library in HT].
  run.
  destruct (transcribe m (audio a) (transcribe_kwargs a T))
    as [[segments info]|msg]; run;
    [|intros [= <-]; right; right; left; by exists msg].
  destruct (outcome (format_segments (transcription a) segments))
    as [tout|e'] eqn:Hfmt;
    [|intros [= <-]; apply format_segments_error in Hfmt as [? ?];
      right; right; right; left; auto].
  run.
  assert (forall tr,
            outcome
              (if word_timestamps a
               then lift (word_timestamps_loop segments [])
                    ≫= λ wl,
                      mret (<["word_timestamps" := PyList wl]>
                              (response cuda_is_available a segments info
                                 tout tr))
               else mret (response cuda_is_available a segments info tout tr))
            = Raise e ->
            word_timestamps a = true /\
            e = TypeError "'NoneType' object is not iterable") as Hlast.
  { intros tr. destruct (word_timestamps a); run; [|discriminate].
    destruct (word_timestamps_loop segments []) eqn:Hw; [discriminate|].
    intros [= <-]. by apply word_timestamps_loop_error in Hw as [-> _]. }
  destruct (translate a); run;
    [|intros H; apply Hlast in H; by repeat right].
  destruct (transcribe m (audio a) (translate_kwargs T))
    as [[segments2 info2]|msg]; run;
    [|intros [= <-]; right; right; left; by exists msg].
  destruct (outcome (format_segments (translation a) segments2))
    as [out|e'] eqn:Hfmt2;
    [|intros [= <-]; apply format_segments_error in Hfmt2 as [? ?];
      right; right; right; left; auto].
  run. intros H. apply Hlast in H. by repeat right.
Qed.

(** X12: setup collects garbage exactly when CUDA is available, and empties
    the CUDA cache exactly when CUDA is available and torch could be
    imported, whether loading succeeds or fails; it never transcribes. *)
Theorem X12_setup_cache_clearing (self : Predictor) :
  (EvGcCollect ∈ log (setup self).2 <-> cuda_is_available = true) /\
  (EvEmptyCache ∈ log (setup self).2 <->
   cuda_is_available = true /\ TORCH_AVAILABLE = true) /\
  transcribe_calls (log (setup self).2) = [].
Proof.
  unfold_setup. unfold clear_cuda_cache.
  destruct (WhisperModel_new _ _ _ _) as [m|msg];
    destruct cuda_is_available, TORCH_AVAILABLE; cbn;
    rewrite ?elem_of_cons, ?elem_of_nil; intuition congruence.
Qed.

Lemma temperature_setting_without_translation (a : PredictArgs) :
  temperature_setting (without_translation a) = temperature_setting a.
Proof. by destruct a. Qed.

Lemma transcribe_kwargs_without_translation (a : PredictArgs) (T : pyvalue) :
  transcribe_kwargs (without_translation a) T = transcribe_kwargs a T.
Proof. by destruct a. Qed.

(** X13: the translation pass changes nothing but the translation field. If
    a predict call returns, the same call without translation returns the
    same mapping with None under translation: segments, detected language,
    transcription and word list are those of the transcription pass. *)
Theorem X13_translation_only_sets_its_field (self : Predictor)
    (a : PredictArgs) (r : gmap string pyvalue) :
  outcome (predict self a) = Ok r ->
  outcome (predict self (without_translation a))
  = Ok (<["translation" := PyNone]> r).
Proof.
  intros H. apply predict_Ok_inv in H
    as (m & T & segments & info & tout & trout & trlog
        & Hname & Hmodel & HT & Hrun & Hfmt & _ & Hr & _).
  unfold_predict.
  change (model_name (without_translation a)) with (model_name a).
  change (audio (without_translation a)) with (audio a).
  change (transcription (without_translation a)) with (transcription a).
  change (translate (without_translation a)) with false.
  change (word_timestamps (without_translation a)) with (word_timestamps a).
  rewrite bool_decide_false by (intros Hn; by apply Hn).
  rewrite Hmodel. run.
  rewrite temperature_setting_without_translation, HT. run.
  rewrite transcribe_kwargs_without_translation, Hrun. run.
  rewrite Hfmt. run.
  destruct (word_timestamps a).
  - destruct Hr as (wl & -> & ->). run. reflexivity.
  - subst r. run. reflexivity.
Qed.

Lemma downloads_script
    (download_model : string -> pyvalue -> lib_result string) :
  Builder.downloads (Builder.script download_model).1 = ["large-v2"].
Proof.
  unfold Builder.script, Builder.download_model_weights.
  by destruct (download_model _ _).
Qed.

(** X14: the build script, setup and predict agree on the model. Whatever
    the download does, the script asks for exactly one model; if every model
    it asked for can be loaded, setup succeeds, and predict then accepts a
    model name exactly when the build asked for it: it goes on to use the
    cached model for such a name and raises the invalid-model error for any
    other. *)
Theorem X14_build_setup_predict_agree
    (download_model : string -> pyvalue -> lib_result string)
    (self : Predictor) (a : PredictArgs) :
  (forall name device compute_type threads,
     name ∈ Builder.downloads (Builder.script download_model).1 ->
     exists m, WhisperModel_new name device compute_type threads = Returned m) ->
  length (Builder.downloads (Builder.script download_model).1) = 1%nat /\
  outcome (setup self).2 = Ok tt /\
  (model_name a ∈ Builder.downloads (Builder.script download_model).1 ->
   exists rest,
     log (predict (setup self).1 a)
     = EvPrint ("Using cached model: " +:+ model_name a) :: rest) /\
  (model_name a ∉ Builder.downloads (Builder.script download_model).1 ->
   exists msg, predict (setup self).1 a = MkM [] (Raise (ValueError msg))).
Proof.
  rewrite downloads_script. intros Hload.
  pose proof (setup_outcome cuda_is_available TORCH_AVAILABLE
                WhisperModel_new self) as Hs.
  destruct (Hload "large-v2"
              (if cuda_is_available then "cuda" else "cpu")
              (if cuda_is_available then "float16" else "int8")
              (if negb cuda_is_available then 4 else 0)) as [m Hm];
    [by apply list_elem_of_singleton|].
  rewrite Hm in Hs. destruct Hs as [Hs1 Hs2].
  split_and!; [done | done | |].
  - intros Hname%list_elem_of_singleton. rewrite Hs1.
    destruct (predict_loaded cuda_is_available np_arange
                {| model := Some m |} a m) as [_ Hlog];
      [done | by rewrite in_available_models | done].
  - intros Hname. unfold_predict.
    rewrite bool_decide_true; [by eexists|].
    rewrite in_available_models. intros Heq. apply Hname.
    by apply list_elem_of_singleton.
Qed.

End PredictorProperties.

Lemma X11_witness :
  outcome (predict true sample_arange sample_predictor base_args)
  = Raise (ValueError
             "Invalid model name: base. Available models are: {'large-v2'}") /\
  model_name base_args <> "large-v2".
Proof.
  split; [reflexivity|].
  destruct (X11_predict_exceptions true sample_arange sample_predictor
              base_args _ eq_refl)
    as [[Hname _] | [[Hnone _] | [[msg Hmsg] | [[Hts _] | [_ Htype]]]]];
    [exact Hname | discriminate Hnone | discriminate Hmsg | | discriminate Htype].
  by destruct Hts as [Hts | [Hts | Hts]].
Defined.


Lemma X9_witness :
  outcome (predict true sample_arange sample_predictor sample_args)
  = Ok sample_response /\
  dom sample_response = response_keys ∪ {[ "word_timestamps" ]}.
Proof.
  split; [exact sample_run|].
  exact (X9_response_keys true sample_arange sample_predictor sample_args
           sample_response sample_run).
Defined.

Lemma X13_witness :
  outcome (predict true sample_arange sample_predictor sample_args)
  = Ok sample_response /\
  outcome (predict true sample_arange sample_predictor
             (without_translation sample_args))
  = Ok (<["translation" := PyNone]> sample_response).
Proof.
  split; [exact sample_run|].
  exact (X13_translation_only_sets_its_field true sample_arange
           sample_predictor sample_args sample_response sample_run).
Defined.

Lemma X14_witness :
  length (Builder.downloads (Builder.script failing_download).1) = 1%nat /\
  outcome (setup true true sample_loader Predictor_init).2 = Ok tt.
Proof.
  destruct (X14_build_setup_predict_agree true true sample_loader
              sample_arange failing_download Predictor_init sample_args)
    as (Hone & Hsetup & _); [|by split].
  intros name device compute_type threads _. by exists sample_model.
Defined.
